(** * Scaling policies of the cluster autoscaler

    A shallow embedding of [autoscaler/scaling_policy.py]: the bin-packing
    allocation loop, the base policy ([ScalingPolicy]), the cost-constrained
    policy ([CostBasedScalingPolicy]) and the growth-triggered policy
    ([GrowthBasedScalingPolicy]), together with the creation and fulfilment
    of asynchronous scale operations.

    Conventions.
    - Python [int] is [Z]; [len] is [Z.of_nat (length _)].
    - Money, hours and wall-clock seconds are Python floats in the source.
      In the policies they are embedded as rationals ([Q]): every
      comparison the theorems on them evaluate on concrete numbers involves
      dyadic rationals of a few bits (0.25, 0.75, small integers), which
      binary64 represents exactly. Where a product or a quotient rounds,
      rational and binary64 arithmetic can decide a test differently: the
      budget gate and the trigger bookkeeping are therefore given a second
      time over any arithmetic ([Arith]), with Python's numbers on binary64
      ([Binary64]) as one instance.
    - A [dict] whose iteration order matters (the per-key [accounted_pods])
      is an association list in insertion order; a [dict] used as a map
      ([pending_pods], the cost table) is a [gmap].
    - Mutable lists that the source appends to ([async_operations]) are
      threaded explicitly through the loops. *)

From Stdlib Require Import ZArith QArith Lqa SpecFloat.
From stdpp Require Import base option list gmap strings.

Local Open Scope Z_scope.

(** ** Data model *)

(** A scalable group, with the fields and the (argument-free) method
    results the policies read. [unschedulable_nodes] is only tested for
    emptiness. [is_timed_out] is the result of [group.is_timed_out()]. *)
Record Group := {
  group_name : string;
  max_size : Z;
  desired_capacity : Z;
  actual_capacity : Z;
  unschedulable_nodes : list string;
  is_timed_out : bool;
  instance_type : string
}.

#[global] Instance Group_eq_dec : EqDecision Group.
Proof. solve_decision. Defined.

(** What awaiting a scale future can do: return a value (only its
    truthiness is used), raise the provider's [CloudError], raise
    [TimeoutError], or raise an exception of another class. *)
Inductive Outcome :=
| Returned (value : bool)
| RaisedCloudError (message : string)
| RaisedTimeoutError
| RaisedOther (exn : string).

(** The collaborators the policies call but do not own: resource vectors
    and pods ([autoscaler.kube]), unit capacities ([autoscaler.capacity]),
    the key-to-groups lookup ([autoscaler.utils]) and the group methods
    [is_taints_tolerated] and [scale]. They are taken as an interface. *)
Class Collaborators := {
  Resource : Type;
  Pod : Type;
  Pod_eq_dec :: EqDecision Pod;
  (** [a - b] on resource vectors *)
  sub : Resource -> Resource -> Resource;
  (** the [.possible] property *)
  possible : Resource -> bool;
  (** [pod.resources] *)
  resources : Pod -> Resource;
  (** [capacity.get_unit_capacity(group)] *)
  get_unit_capacity : Group -> Resource;
  (** [group.is_taints_tolerated(pod)] *)
  is_taints_tolerated : Group -> Pod -> bool;
  (** [utils.get_groups_for_hash(asgs, selectors_hash)] *)
  get_groups_for_hash : list Group -> string -> list Group;
  (** how the future returned by [group.scale(new_capacity)] resolves;
      the provider is taken to answer equal calls equally within a cycle *)
  scale : Group -> Z -> Outcome
}.

(** The part of the cluster facade the policies read. *)
Record Cluster := {
  autoscaling_timeouts : Group -> bool;
  _prioritize_groups : list Group -> list Group;
  over_provision : Z
}.

(** One call [cluster.notifier.notify_scale(group, units_requested, pods)];
    the pod list is recorded with its contents at the time of the call. *)
Record NotifyCall `{Collaborators} := {
  notified_group : Group;
  notified_units : Z;
  notified_pods : list Pod
}.

(** A future returned by [group.scale], with the variables captured by the
    completion callback registered on it. *)
Record AsyncOperation `{Collaborators} := {
  op_group : Group;
  op_new_capacity : Z;
  op_units_requested : Z;
  op_assigned_pods : list (list Pod);
  op_outcome : Outcome
}.

(** Log records. The statistics lines are kept with the values they
    print, in the order the source prints them. *)
Inductive LogRecord :=
| Warn (message : string)
| Info (message : string)
| CostStats (num_hours : Z) (max_cost_per_hour spent_this_hour
             avg_hours_used_per_instance : Q)
| GrowthStats (num_triggers_to_provision : Z) (trigger_growth_factor : Q)
              (num_triggers last_num_pods curr_num_pods : Z).

(** How a call ends: it returns, or an exception leaves it. *)
Inductive Completion :=
| Normal
| Propagated (exn : string).

(** ** Python containers *)

Section Containers.
Context {K V : Type} `{EqDecision K}.

(** [d[k] = v] on a dict kept in insertion order: an existing key keeps its
    position and takes the new value, a new key goes last. *)
Fixpoint dict_set (k : K) (v : V) (d : list (K * V)) : list (K * V) :=
  match d with
  | [] => [(k, v)]
  | (k', v') :: d' =>
      if decide (k = k') then (k', v) :: d' else (k', v') :: dict_set k v d'
  end.

(** [dict(pairs)] *)
Definition dict_of (pairs : list (K * V)) : list (K * V) :=
  foldl (fun d kv => dict_set kv.1 kv.2 d) [] pairs.

(** The elements of a list in the order in which they first occur. *)
Fixpoint first_occurrences (l : list K) : list K :=
  match l with
  | [] => []
  | x :: l' => x :: filter (fun y => y <> x) (first_occurrences l')
  end.

End Containers.

(** [set(pending_pods.keys())], in the order it is iterated. Python does
    not fix that order; here it is the order of [elements]. The theorems
    below depend on it only for the order in which operations are listed. *)
Definition key_set {V : Type} (pending_pods : gmap string V) : list string :=
  elements (dom pending_pods).

(** [pending_pods.get(selectors_hash, [])] *)
Definition get_pods {V : Type} (pending_pods : gmap string (list V))
    (selectors_hash : string) : list V :=
  default [] (pending_pods !! selectors_hash).

(** A loop whose body can raise: the first [None] ends it. *)
Fixpoint foldl_raising {A B : Type} (body : A -> B -> option A) (a : A)
    (l : list B) : option A :=
  match l with
  | [] => Some a
  | x :: l' =>
      match body a x with
      | Some a' => foldl_raising body a' l'
      | None => None
      end
  end.

(** [a > b] on floats. *)
Definition Qgtb (a b : Q) : bool := negb (Qle_bool a b).

(** ** The base policy: class [ScalingPolicy] *)

Module ScalingPolicy.
Section Policy.
Context `{Collaborators}.

(** [fulfill_requests]: awaits the operations in order. The result is the
    warnings logged, the number of [operation.result()] calls made, and how
    the method ends. Only [CloudError] and [TimeoutError] have a handler;
    any other exception leaves the loop and the method. *)
Fixpoint fulfill_requests (async_operations : list AsyncOperation)
    : list LogRecord * nat * Completion :=
  match async_operations with
  | [] => ([], 0%nat, Normal)
  | operation :: rest =>
      match op_outcome operation with
      | Returned _ =>
          let '(log, awaited, c) := fulfill_requests rest in
          (log, S awaited, c)
      | RaisedCloudError message =>
          let '(log, awaited, c) := fulfill_requests rest in
          (Warn ("Error while scaling Scale Set: " +:+ message) :: log,
           S awaited, c)
      | RaisedTimeoutError =>
          let '(log, awaited, c) := fulfill_requests rest in
          (Warn "Timeout while scaling Scale Set" :: log, S awaited, c)
      | RaisedOther exn => ([], 1%nat, Propagated exn)
      end
  end.

(** The loop of [notify_if_scaled] over [assigned_pods]:
    [flat_assigned_pods] grows by one bin per iteration, and the call to
    [notify_scale] is in the loop body. *)
Fixpoint notify_loop (group : Group) (units_requested : Z)
    (flat_assigned_pods : list Pod) (assigned_pods : list (list Pod))
    : list NotifyCall :=
  match assigned_pods with
  | [] => []
  | instance_pods :: rest =>
      let flat_assigned_pods := flat_assigned_pods ++ instance_pods in
      {| notified_group := group;
         notified_units := units_requested;
         notified_pods := flat_assigned_pods |}
      :: notify_loop group units_requested flat_assigned_pods rest
  end.

(** The completion callback [notify_if_scaled(future)], as the list of
    [notify_scale] calls it makes. When [future.result()] raises, the
    callback raises before any call. *)
Definition notify_if_scaled (operation : AsyncOperation) : list NotifyCall :=
  match op_outcome operation with
  | Returned true =>
      notify_loop (op_group operation) (op_units_requested operation) []
        (op_assigned_pods operation)
  | _ => []
  end.

(** [create_async_operation]: calls [group.scale(new_capacity)] and
    registers the callback on the future it returns. *)
Definition create_async_operation (cluster : Cluster) (group : Group)
    (assigned_pods : list (list Pod)) (new_capacity units_requested : Z)
    : AsyncOperation :=
  {| op_group := group;
     op_new_capacity := new_capacity;
     op_units_requested := units_requested;
     op_assigned_pods := assigned_pods;
     op_outcome := scale group new_capacity |}.

(** *** Bin packing *)

(** The scan [for i, instance in enumerate(new_instance_resources)] up to
    its [break]: the index of the first instance that can still hold
    [wanted], with its new residual. [i] is the index of the head. *)
Fixpoint find_fit (wanted : Resource) (i : nat)
    (new_instance_resources : list Resource) : option (nat * Resource) :=
  match new_instance_resources with
  | [] => None
  | instance :: rest =>
      if possible (sub instance wanted)
      then Some (i, sub instance wanted)
      else find_fit wanted (S i) rest
  end.

(** The body of the pod loop once the pod has passed the guard. The index
    found is in the range of both lists, which have the same length
    (lemma [pack_lengths]), so that neither assignment can fall outside. *)
Definition place_pod (unit_capacity : Resource)
    (bins : list Resource * list (list Pod)) (pod : Pod)
    : list Resource * list (list Pod) :=
  let '(new_instance_resources, assigned_pods) := bins in
  match find_fit (resources pod) 0 new_instance_resources with
  | Some (i, residual) =>
      (<[i := residual]> new_instance_resources,
       alter (fun pods => pods ++ [pod]) i assigned_pods)
  | None =>
      (new_instance_resources ++ [sub unit_capacity (resources pod)],
       assigned_pods ++ [[pod]])
  end.

(** The guard [if acc or not (unit_capacity - pod.resources).possible or
    not group.is_taints_tolerated(pod): continue]. *)
Definition skip_pod (group : Group) (unit_capacity : Resource)
    (pod : Pod) (acc : bool) : bool :=
  acc || negb (possible (sub unit_capacity (resources pod)))
      || negb (is_taints_tolerated group pod).

Definition pack_step (group : Group) (unit_capacity : Resource)
    (bins : list Resource * list (list Pod)) (item : Pod * bool)
    : list Resource * list (list Pod) :=
  if skip_pod group unit_capacity item.1 item.2 then bins
  else place_pod unit_capacity bins item.1.

(** The loop [for pod, acc in accounted_pods.items()], from given bins. *)
Definition pack_from (group : Group) (unit_capacity : Resource)
    (bins : list Resource * list (list Pod))
    (accounted_pods : list (Pod * bool)) : list Resource * list (list Pod) :=
  foldl (pack_step group unit_capacity) bins accounted_pods.

(** The allocation loop of one group: it starts from no bins. *)
Definition pack (group : Group) (accounted_pods : list (Pod * bool))
    : list Resource * list (list Pod) :=
  pack_from group (get_unit_capacity group) ([], []) accounted_pods.

(** *** The decision *)

(** Whether the group is timed out, for the tracker or for itself. *)
Definition timed_out (cluster : Cluster) (group : Group) : bool :=
  autoscaling_timeouts cluster group || is_timed_out group.

(** The first guard of the group loop. *)
Definition skip_group (cluster : Cluster) (group : Group) : bool :=
  (timed_out cluster group
   || bool_decide (max_size group = desired_capacity group))
  && bool_decide (unschedulable_nodes group = []).

Definition unavailable_units (cluster : Cluster) (group : Group)
    (units_needed : Z) : Z :=
  if timed_out cluster group
  then Z.max 0 (units_needed
                - (desired_capacity group - actual_capacity group))
  else Z.max 0 (units_needed - (max_size group - actual_capacity group)).

(** [units_requested] from the number of bins. *)
Definition units_requested_of (cluster : Cluster) (group : Group)
    (bins : nat) : Z :=
  let units_needed := Z.of_nat bins + over_provision cluster in
  units_needed - unavailable_units cluster group units_needed.

(** The body of [for group in groups]. *)
Definition decide_group (cluster : Cluster)
    (accounted_pods : list (Pod * bool))
    (async_operations : list AsyncOperation) (group : Group)
    : list AsyncOperation :=
  if skip_group cluster group then async_operations
  else
    let '(new_instance_resources, assigned_pods) :=
      pack group accounted_pods in
    let units_needed := length new_instance_resources in
    if bool_decide (units_needed = 0%nat) then async_operations
    else
      let units_requested := units_requested_of cluster group units_needed in
      let new_capacity := actual_capacity group + units_requested in
      async_operations ++
        [create_async_operation cluster group assigned_pods new_capacity
           units_requested].

(** The body of [for selectors_hash in set(pending_pods.keys())] in
    [decide_num_instances]: the decision for the pods of one key. *)
Definition decide_hash (cluster : Cluster)
    (pending_pods : gmap string (list Pod)) (asgs : list Group)
    (async_operations : list AsyncOperation) (selectors_hash : string)
    : list AsyncOperation :=
  let pods := get_pods pending_pods selectors_hash in
  let accounted_pods := dict_of ((fun p => (p, false)) <$> pods) in
  let groups := get_groups_for_hash asgs selectors_hash in
  let groups := _prioritize_groups cluster groups in
  foldl (decide_group cluster accounted_pods) async_operations groups.

Definition decide_num_instances (cluster : Cluster)
    (pending_pods : gmap string (list Pod)) (asgs : list Group)
    (async_operations : list AsyncOperation) : list AsyncOperation :=
  foldl (decide_hash cluster pending_pods asgs) async_operations
    (key_set pending_pods).

(** The operations [apply] has collected when it calls
    [fulfill_requests]: the loop variable is not passed on. *)
Definition apply_operations (pending_pods : gmap string (list Pod))
    (asgs : list Group) (cluster : Cluster) : list AsyncOperation :=
  foldl (fun async_operations (_ : string) =>
           decide_num_instances cluster pending_pods asgs async_operations)
    [] (key_set pending_pods).

Definition apply (pending_pods : gmap string (list Pod))
    (asgs : list Group) (cluster : Cluster)
    : list AsyncOperation * (list LogRecord * nat * Completion) :=
  let async_operations := apply_operations pending_pods asgs cluster in
  (async_operations, fulfill_requests async_operations).

End Policy.
End ScalingPolicy.

(** ** The cost-constrained policy: class [CostBasedScalingPolicy] *)

Module CostBasedScalingPolicy.

(** The attributes of the policy object. [costs_per_hour] maps an instance
    type to its ['cost-per-hour'] entry of the region's cost table. *)
Record State := {
  max_cost_per_hour : Q;
  region : string;
  start_time : Q;
  num_hours : Z;
  spent_this_hour : Q;
  num_seconds_instances_used : Q;
  num_instances_tracked : Z;
  costs_per_hour : gmap string Q
}.

(** The constructor; [now] is what [time.time()] returns and [table] the
    cost table of [region] read from [Config.COST_DATA]. *)
Definition __init__ (max_cost_per_hour : Q) (region : string) (now : Q)
    (table : gmap string Q) : State :=
  {| max_cost_per_hour := max_cost_per_hour;
     region := region;
     start_time := now;
     num_hours := 0;
     spent_this_hour := 0;
     num_seconds_instances_used := 0;
     num_instances_tracked := 0;
     costs_per_hour := table |}.

Definition avg_hours_used_per_instance (self : State) : Q :=
  if 0 <? num_instances_tracked self
  then (num_seconds_instances_used self
        / inject_Z (num_instances_tracked self) / 3600)%Q
  else (1 # 4)%Q.

(** [node_terminated], with the creation time already in epoch seconds;
    [now] is what [time.time()] returns. The two usage counters are updated
    before the cost entry is looked up, so they keep their new values when
    the lookup raises [KeyError]. *)
Definition node_terminated (self : State) (now creation_time_epoch : Q)
    (type : string) : State * Completion :=
  let time_used_by_instance := (now - creation_time_epoch)%Q in
  let self :=
    {| max_cost_per_hour := max_cost_per_hour self;
       region := region self;
       start_time := start_time self;
       num_hours := num_hours self;
       spent_this_hour := spent_this_hour self;
       num_seconds_instances_used :=
         (num_seconds_instances_used self + time_used_by_instance)%Q;
       num_instances_tracked := num_instances_tracked self + 1;
       costs_per_hour := costs_per_hour self |} in
  match costs_per_hour self !! type with
  | Some cost =>
      ({| max_cost_per_hour := max_cost_per_hour self;
          region := region self;
          start_time := start_time self;
          num_hours := num_hours self;
          spent_this_hour :=
            (spent_this_hour self + cost * (time_used_by_instance / 3600))%Q;
          num_seconds_instances_used := num_seconds_instances_used self;
          num_instances_tracked := num_instances_tracked self;
          costs_per_hour := costs_per_hour self |}, Normal)
  | None => (self, Propagated "KeyError")
  end.

(** The first statement of [decide_num_instances]:
    [if (self.start_time - curr_time) / 3600 > self.num_hours]. *)
Definition new_hour (self : State) (curr_time : Q) : State :=
  if Qgtb ((start_time self - curr_time) / 3600)%Q (inject_Z (num_hours self))
  then {| max_cost_per_hour := max_cost_per_hour self;
          region := region self;
          start_time := start_time self;
          num_hours := num_hours self + 1;
          spent_this_hour := 0;
          num_seconds_instances_used := num_seconds_instances_used self;
          num_instances_tracked := num_instances_tracked self;
          costs_per_hour := costs_per_hour self |}
  else self.

Definition predicted_cost (self : State) (cost_per_hour : Q) (i : Z) : Q :=
  (spent_this_hour self
   + inject_Z (i + 1) * avg_hours_used_per_instance self * cost_per_hour)%Q.

(** The loop [for i in range(units_requested)] over the remaining indices
    [range]; it yields the final [units_requested]. The cost entry is
    looked up in each iteration; [None] is its [KeyError]. *)
Fixpoint gate_loop (self : State) (group : Group) (range : list Z)
    (units_requested : Z) : option Z :=
  match range with
  | [] => Some units_requested
  | i :: rest =>
      cost ← costs_per_hour self !! instance_type group;
      if Qgtb (predicted_cost self cost i)
           (max_cost_per_hour self * (3 # 4))%Q
      then Some (i + 1)
      else gate_loop self group rest units_requested
  end.

(** The budget gate: [range(units_requested)] is [0, ..., units_requested-1],
    and is empty when [units_requested <= 0]. *)
Definition budget_gate (self : State) (group : Group) (units_requested : Z)
    : option Z :=
  gate_loop self group (seqZ 0 units_requested) units_requested.

Section Policy.
Context `{Collaborators}.

(** The body of [for group in groups]. Up to the gate its statements are
    those of the base policy, whose definitions are used for them. *)
Definition decide_group (self : State) (cluster : Cluster)
    (accounted_pods : list (Pod * bool))
    (async_operations : list AsyncOperation) (group : Group)
    : option (list AsyncOperation) :=
  if ScalingPolicy.skip_group cluster group then Some async_operations
  else
    let '(new_instance_resources, assigned_pods) :=
      ScalingPolicy.pack group accounted_pods in
    let units_needed := length new_instance_resources in
    if bool_decide (units_needed = 0%nat) then Some async_operations
    else
      let units_requested :=
        ScalingPolicy.units_requested_of cluster group units_needed in
      units_requested ← budget_gate self group units_requested;
      let new_capacity := actual_capacity group + units_requested in
      Some (async_operations ++
              [ScalingPolicy.create_async_operation cluster group
                 assigned_pods new_capacity units_requested]).

Definition decide_hash (self : State) (cluster : Cluster)
    (pending_pods : gmap string (list Pod)) (asgs : list Group)
    (async_operations : list AsyncOperation) (selectors_hash : string)
    : option (list AsyncOperation) :=
  let pods := get_pods pending_pods selectors_hash in
  let accounted_pods := dict_of ((fun p => (p, false)) <$> pods) in
  let groups := get_groups_for_hash asgs selectors_hash in
  let groups := _prioritize_groups cluster groups in
  foldl_raising (decide_group self cluster accounted_pods) async_operations
    groups.

(** [decide_num_instances]; [curr_time] is what [time.time()] returns. The
    new state is kept also when the loops raise. *)
Definition decide_num_instances (self : State) (curr_time : Q)
    (cluster : Cluster) (pending_pods : gmap string (list Pod))
    (asgs : list Group) (async_operations : list AsyncOperation)
    : State * option (list AsyncOperation) :=
  let self := new_hour self curr_time in
  (self,
   foldl_raising (decide_hash self cluster pending_pods asgs)
     async_operations (key_set pending_pods)).

(** [apply]; [clock k] is the time read by the call of
    [decide_num_instances] made in the iteration for key [k]. The
    fulfilment is missing when a [KeyError] left the method before. *)
Definition apply (self : State) (clock : string -> Q)
    (pending_pods : gmap string (list Pod)) (asgs : list Group)
    (cluster : Cluster)
    : State * list LogRecord
      * option (list AsyncOperation * (list LogRecord * nat * Completion)) :=
  let stats :=
    CostStats (num_hours self) (max_cost_per_hour self)
      (spent_this_hour self) (avg_hours_used_per_instance self) in
  let '(self, async_operations) :=
    foldl (fun '(self, async_operations) selectors_hash =>
             match async_operations with
             | Some async_operations =>
                 decide_num_instances self (clock selectors_hash) cluster
                   pending_pods asgs async_operations
             | None => (self, None)
             end)
      (self, Some []) (key_set pending_pods) in
  (self, [stats],
   (fun async_operations =>
      (async_operations, ScalingPolicy.fulfill_requests async_operations))
   <$> async_operations).

End Policy.
End CostBasedScalingPolicy.

(** ** The growth-triggered policy: class [GrowthBasedScalingPolicy] *)

Module GrowthBasedScalingPolicy.

Record State := {
  trigger_growth_factor : Q;
  num_triggers_to_provision : Z;
  num_triggers : Z;
  last_num_pods : Z
}.

Definition __init__ (trigger_growth_factor : Q)
    (num_triggers_to_provision : Z) : State :=
  {| trigger_growth_factor := trigger_growth_factor;
     num_triggers_to_provision := num_triggers_to_provision;
     num_triggers := 0;
     last_num_pods := 0 |}.

Definition set_counters (self : State) (num_triggers last_num_pods : Z)
    : State :=
  {| trigger_growth_factor := trigger_growth_factor self;
     num_triggers_to_provision := num_triggers_to_provision self;
     num_triggers := num_triggers;
     last_num_pods := last_num_pods |}.

(** [sum(len(podlist) for podlist in pending_pods.values())] *)
Definition count_pending {V : Type} (pending_pods : gmap string (list V))
    : Z :=
  map_fold (fun _ podlist total => total + Z.of_nat (length podlist)) 0
    pending_pods.

(** The first [if]/[else] of [apply]: the trigger bookkeeping. *)
Definition update_triggers (self : State) (num_pending_pods : Z) : State :=
  if Qgtb (inject_Z num_pending_pods)
       (trigger_growth_factor self * inject_Z (last_num_pods self))%Q
  then set_counters self (num_triggers self + 1) num_pending_pods
  else if Qgtb (inject_Z (last_num_pods self) * (3 # 4))%Q
            (inject_Z num_pending_pods)
       then set_counters self 0 0
       else self.

Section Policy.
Context `{Collaborators}.

(** [apply]: the new state, the log records, and, when the policy fires,
    the operations collected and their fulfilment. *)
Definition apply (self : State) (pending_pods : gmap string (list Pod))
    (asgs : list Group) (cluster : Cluster)
    : State * list LogRecord
      * option (list AsyncOperation * (list LogRecord * nat * Completion)) :=
  let num_pending_pods := count_pending pending_pods in
  let self := update_triggers self num_pending_pods in
  let stats :=
    GrowthStats (num_triggers_to_provision self) (trigger_growth_factor self)
      (num_triggers self) (last_num_pods self) num_pending_pods in
  if bool_decide (num_triggers_to_provision self <= num_triggers self)
  then
    let self := set_counters self 0 0 in
    let async_operations :=
      ScalingPolicy.apply_operations pending_pods asgs cluster in
    (self, [stats; Info "Growth Based Policy Trigger! Growing Cluster!"],
     Some (async_operations,
           ScalingPolicy.fulfill_requests async_operations))
  else (self, [stats], None).

(** Successive calls of [apply] on one policy object, one per decision
    cycle, with what each call returns. *)
Fixpoint cycles (self : State) (pending : list (gmap string (list Pod)))
    (asgs : list Group) (cluster : Cluster)
    : list (State * list LogRecord
            * option (list AsyncOperation
                      * (list LogRecord * nat * Completion))) :=
  match pending with
  | [] => []
  | pending_pods :: rest =>
      let result := apply self pending_pods asgs cluster in
      result :: cycles result.1.1 rest asgs cluster
  end.

End Policy.

Definition counters (self : State) : Z * Z :=
  (num_triggers self, last_num_pods self).

(** Whether a call of [apply] ran the decision procedure. *)
Definition fired {A B C : Type} (result : A * B * option C) : bool :=
  match result.2 with
  | Some _ => true
  | None => false
  end.

End GrowthBasedScalingPolicy.

(** ** A concrete instance of the collaborators *)

Module Kube.

(** Modelled from the spec: the resource vector of [autoscaler.kube], which
    is not part of the sources at hand. It is an ordered tuple of numeric
    dimensions, subtraction is component-wise and may go negative, and a
    vector is feasible iff all its components are non-negative. *)
Definition KubeResource : Type := list Z.

Definition kube_sub (a b : KubeResource) : KubeResource := zip_with Z.sub a b.

Definition kube_possible (a : KubeResource) : bool := forallb (Z.leb 0) a.

(** Modelled from the spec: a pod, with its requested resources and whether
    the groups at hand tolerate its taints. *)
Record KubePod := {
  pod_name : string;
  pod_resources : KubeResource;
  pod_tolerated : bool
}.

#[global] Instance KubePod_eq_dec : EqDecision KubePod.
Proof. solve_decision. Defined.

(** Every unit offers [unit_capacity]; every group serves every key; every
    scale call resolves as [outcome] says. *)
Definition collaborators (unit_capacity : KubeResource)
    (outcome : Group -> Z -> Outcome) : Collaborators :=
  {| Resource := KubeResource;
     Pod := KubePod;
     sub := kube_sub;
     possible := kube_possible;
     resources := pod_resources;
     get_unit_capacity := fun _ => unit_capacity;
     is_taints_tolerated := fun _ pod => pod_tolerated pod;
     get_groups_for_hash := fun asgs _ => asgs;
     scale := outcome |}.

Definition cluster (over_provision : Z) : Cluster :=
  {| autoscaling_timeouts := fun _ => false;
     _prioritize_groups := fun groups => groups;
     over_provision := over_provision |}.

Definition group (name : string) (actual desired max : Z) : Group :=
  {| group_name := name;
     max_size := max;
     desired_capacity := desired;
     actual_capacity := actual;
     unschedulable_nodes := [];
     is_timed_out := false;
     instance_type := "Standard_D2" |}.

Definition pod (name : string) (cpu : Z) : KubePod :=
  {| pod_name := name; pod_resources := [cpu]; pod_tolerated := true |}.

Definition succeeds : Group -> Z -> Outcome := fun _ _ => Returned true.

(** A provider that fails for the group named ["faulty"] with an exception
    that is neither [CloudError] nor [TimeoutError], times out for
    ["slow"], reports a provider error for ["refused"], and succeeds
    otherwise. *)
Definition provider : Group -> Z -> Outcome := fun group _ =>
  if decide (group_name group = "faulty") then RaisedOther "ValueError"
  else if decide (group_name group = "slow") then RaisedTimeoutError
  else if decide (group_name group = "refused")
       then RaisedCloudError "quota exceeded"
       else Returned true.

Definition p1 : KubePod := pod "p1" 1.
Definition p2 : KubePod := pod "p2" 1.
Definition p3 : KubePod := pod "p3" 1.
Definition p4 : KubePod := pod "p4" 1.

(** A cost-constrained policy with a budget of 10 per hour, of which
    [spent] is spent, no instance tracked yet (so that the average use is
    the default quarter of an hour), constructed at time 0, and the
    instance type of [group] at 2 per hour. *)
Definition cost_policy (spent : Q) : CostBasedScalingPolicy.State :=
  {| CostBasedScalingPolicy.max_cost_per_hour := 10;
     CostBasedScalingPolicy.region := "westeurope";
     CostBasedScalingPolicy.start_time := 0;
     CostBasedScalingPolicy.num_hours := 0;
     CostBasedScalingPolicy.spent_this_hour := spent;
     CostBasedScalingPolicy.num_seconds_instances_used := 0;
     CostBasedScalingPolicy.num_instances_tracked := 0;
     CostBasedScalingPolicy.costs_per_hour := {[ "Standard_D2" := 2%Q ]} |}.

(** A cost-constrained policy with a budget of 10 per hour, constructed at
    time 0, with the given amount spent, seconds of use, instances tracked
    and cost table. *)
Definition cost_state (spent seconds : Q) (tracked : Z)
    (table : gmap string Q) : CostBasedScalingPolicy.State :=
  {| CostBasedScalingPolicy.max_cost_per_hour := 10;
     CostBasedScalingPolicy.region := "westeurope";
     CostBasedScalingPolicy.start_time := 0;
     CostBasedScalingPolicy.num_hours := 0;
     CostBasedScalingPolicy.spent_this_hour := spent;
     CostBasedScalingPolicy.num_seconds_instances_used := seconds;
     CostBasedScalingPolicy.num_instances_tracked := tracked;
     CostBasedScalingPolicy.costs_per_hour := table |}.

(** [n] pending pods of one cpu, named A, B, C, ..., under one key. *)
Definition numbered_pod (i : nat) : KubePod :=
  pod (String (Ascii.ascii_of_nat (65 + i)) EmptyString) 1.

Definition pending_count (n : nat) : gmap string (list KubePod) :=
  {[ "a" := numbered_pod <$> seq 0 n ]}.

(** One key with three pods of one cpu each; and a second key with one. *)
Definition pending_one_key : gmap string (list KubePod) :=
  {[ "a" := [p1; p2; p3] ]}.

Definition pending_two_keys : gmap string (list KubePod) :=
  <[ "b" := [p4] ]> pending_one_key.

(** A pod that asks for three cpus, and a pod whose taints the groups do
    not tolerate. *)
Definition big_pod : KubePod := pod "big" 3.

Definition untolerated_pod : KubePod :=
  {| pod_name := "tainted"; pod_resources := [1]; pod_tolerated := false |}.

(** A group that has reached both its desired capacity and its maximum,
    with one node that cannot be scheduled on. *)
Definition full_group : Group :=
  {| group_name := "full";
     max_size := 4;
     desired_capacity := 4;
     actual_capacity := 4;
     unschedulable_nodes := ["node-1"];
     is_timed_out := false;
     instance_type := "Standard_D2" |}.

End Kube.

(** ** Specification predicates *)

Section Specification.
Context `{Collaborators}.

(** What one iteration of the allocation loop may do with a pod: skip it,
    put it in the first bin that can still hold it, or open a bin. *)
Inductive placement (group : Group) (unit_capacity : Resource)
    : list Resource * list (list Pod) -> Pod * bool
      -> list Resource * list (list Pod) -> Prop :=
| placement_skip residuals pods pod acc :
    acc = true
    \/ possible (sub unit_capacity (resources pod)) = false
    \/ is_taints_tolerated group pod = false ->
    placement group unit_capacity (residuals, pods) (pod, acc)
      (residuals, pods)
| placement_fit residuals pods pod i instance :
    possible (sub unit_capacity (resources pod)) = true ->
    is_taints_tolerated group pod = true ->
    residuals !! i = Some instance ->
    possible (sub instance (resources pod)) = true ->
    (forall j earlier, (j < i)%nat -> residuals !! j = Some earlier ->
       possible (sub earlier (resources pod)) = false) ->
    placement group unit_capacity (residuals, pods) (pod, false)
      (<[i := sub instance (resources pod)]> residuals,
       alter (fun assigned => assigned ++ [pod]) i pods)
| placement_open residuals pods pod :
    possible (sub unit_capacity (resources pod)) = true ->
    is_taints_tolerated group pod = true ->
    Forall (fun instance => possible (sub instance (resources pod)) = false)
      residuals ->
    placement group unit_capacity (residuals, pods) (pod, false)
      (residuals ++ [sub unit_capacity (resources pod)], pods ++ [[pod]]).

(** A bin and the pods assigned to it: the residual is feasible, it is the
    unit capacity minus the pods in the order they were assigned, there is
    at least one pod, and every pod is tolerated by the group and fits a
    fresh unit alone. *)
Definition bin_ok (group : Group) (unit_capacity residual : Resource)
    (assigned : list Pod) : Prop :=
  possible residual = true
  /\ residual = foldl sub unit_capacity (resources <$> assigned)
  /\ assigned <> []
  /\ Forall (fun pod =>
               is_taints_tolerated group pod = true
               /\ possible (sub unit_capacity (resources pod)) = true)
       assigned.

Definition bins_ok (group : Group) (unit_capacity : Resource)
    (bins : list Resource * list (list Pod)) : Prop :=
  Forall2 (bin_ok group unit_capacity) bins.1 bins.2.

#[global] Instance Outcome_eq_dec : EqDecision Outcome.
Proof. solve_decision. Defined.

(** The outcomes [fulfill_requests] has a handler for, or that need none. *)
Definition handled (outcome : Outcome) : bool :=
  match outcome with
  | RaisedOther _ => false
  | _ => true
  end.

(** The warning [fulfill_requests] logs for an outcome. *)
Definition warning_of (outcome : Outcome) : list LogRecord :=
  match outcome with
  | RaisedCloudError message =>
      [Warn ("Error while scaling Scale Set: " +:+ message)]
  | RaisedTimeoutError => [Warn "Timeout while scaling Scale Set"]
  | _ => []
  end.

(** An operation as the group loop of the base policy creates them: for a
    group that passed the first guard, from a positive number of bins. *)
Definition issued_by (cluster : Cluster) (operation : AsyncOperation)
    : Prop :=
  exists bins : nat,
    bins <> 0%nat
    /\ ScalingPolicy.skip_group cluster (op_group operation) = false
    /\ op_units_requested operation
       = ScalingPolicy.units_requested_of cluster (op_group operation) bins
    /\ op_new_capacity operation
       = actual_capacity (op_group operation) + op_units_requested operation
    /\ op_outcome operation
       = scale (op_group operation) (op_new_capacity operation).

End Specification.

(** The trigger bookkeeping of one call of the growth-triggered [apply] as
    a function of the number of pending pods: the state left and whether
    the decision procedure runs. *)
Definition trigger_step (self : GrowthBasedScalingPolicy.State)
    (num_pending_pods : Z) : GrowthBasedScalingPolicy.State * bool :=
  let self := GrowthBasedScalingPolicy.update_triggers self num_pending_pods in
  if bool_decide (GrowthBasedScalingPolicy.num_triggers_to_provision self
                  <= GrowthBasedScalingPolicy.num_triggers self)
  then (GrowthBasedScalingPolicy.set_counters self 0 0, true)
  else (self, false).

Fixpoint trigger_steps (self : GrowthBasedScalingPolicy.State)
    (counts : list Z) : list (GrowthBasedScalingPolicy.State * bool) :=
  match counts with
  | [] => []
  | n :: rest =>
      let result := trigger_step self n in
      result :: trigger_steps result.1 rest
  end.

Section Provenance.
Context `{Collaborators}.

(** [dict((p, False) for p in pods)] *)
Definition accounted (pods : list Pod) : list (Pod * bool) :=
  dict_of ((fun p => (p, false)) <$> pods).

(** The pods the guard of the allocation loop lets through. *)
Definition admitted (group : Group) (item : Pod * bool) : Prop :=
  ScalingPolicy.skip_pod group (get_unit_capacity group) item.1 item.2
  = false.

#[global] Instance admitted_dec group item : Decision (admitted group item).
Proof. unfold admitted. apply _. Defined.

(** Where an operation of the base policy comes from: a pending key, a
    group the cluster returned for that key and that passed the first
    guard, and the bins packed for that group from the pods of the key. *)
Definition issued_from (cluster : Cluster)
    (pending_pods : gmap string (list Pod)) (asgs : list Group)
    (operation : AsyncOperation) : Prop :=
  exists selectors_hash,
    selectors_hash ∈ key_set pending_pods
    /\ op_group operation
       ∈ _prioritize_groups cluster (get_groups_for_hash asgs selectors_hash)
    /\ ScalingPolicy.skip_group cluster (op_group operation) = false
    /\ op_assigned_pods operation
       = (ScalingPolicy.pack (op_group operation)
            (accounted (get_pods pending_pods selectors_hash))).2
    /\ op_assigned_pods operation <> [].

(** The units and the capacity of an operation, computed from its bins. *)
Definition units_as_computed (cluster : Cluster) (operation : AsyncOperation)
    : Prop :=
  op_units_requested operation
  = ScalingPolicy.units_requested_of cluster (op_group operation)
      (length (op_assigned_pods operation))
  /\ op_new_capacity operation
     = actual_capacity (op_group operation) + op_units_requested operation
  /\ op_outcome operation
     = scale (op_group operation) (op_new_capacity operation).

End Provenance.

(** ** The arithmetic of the cost and growth tests *)

(** The numbers of the two stateful policies are Python numbers, and their
    tests compare the results of binary64 operations. The definitions of
    this part repeat the budget gate and the trigger bookkeeping over any
    arithmetic: with [exact] they are the definitions above, with
    [Binary64.python] they compute what the interpreter computes. *)
Class Arithmetic := {
  number : Type;
  (** a Python [int] as a number *)
  of_int : Z -> number;
  (** the literals [0.25] and [0.75] *)
  quarter : number;
  three_quarters : number;
  num_add : number -> number -> number;
  num_mul : number -> number -> number;
  (** true division, [a / b] *)
  num_div : number -> number -> number;
  (** [a > b]; [a < b] is [b > a] *)
  num_gtb : number -> number -> bool
}.

(** Rational arithmetic without rounding. *)
Definition exact : Arithmetic :=
  {| number := Q;
     of_int := inject_Z;
     quarter := 1 # 4;
     three_quarters := 3 # 4;
     num_add := Qplus;
     num_mul := Qmult;
     num_div := Qdiv;
     num_gtb := Qgtb |}.

Module Binary64.

Definition prec : Z := 53.
Definition emax : Z := 1024.

(** A Python number: an [int] of any size or a [float], which is an IEEE
    754 binary64 value. *)
Inductive PyNumber :=
| PyInt (n : Z)
| PyFloat (x : spec_float).

(** [float(n)]: the nearest binary64 value, ties to even. (Python raises
    [OverflowError] where this yields an infinity, for integers of more
    than 1023 bits.) *)
Definition float_of_int (n : Z) : spec_float :=
  binary_normalize prec emax n 0 false.

Definition to_float (a : PyNumber) : spec_float :=
  match a with
  | PyInt n => float_of_int n
  | PyFloat x => x
  end.

(** The correctly rounded quotient of two small integers: the value of a
    decimal literal such as [1.4], written [decimal 14 10]. *)
Definition decimal (numerator denominator : Z) : PyNumber :=
  PyFloat (SFdiv prec emax (float_of_int numerator)
             (float_of_int denominator)).

(** Python compares an [int] with a [float] by their exact values. *)
Definition compare_int_float (n : Z) (x : spec_float) : option comparison :=
  match x with
  | S754_nan => None
  | S754_infinity negative => Some (if negative then Gt else Lt)
  | S754_zero _ => Some (n ?= 0)
  | S754_finite negative m e =>
      let mantissa := if negative then Z.neg m else Z.pos m in
      if 0 <=? e then Some (n ?= mantissa * 2 ^ e)
      else Some (n * 2 ^ (- e) ?= mantissa)
  end.

(** [a + b] and [a * b]: on two [int]s the exact result, otherwise the
    binary64 operation on the operands as [float]s. *)
Definition py_add (a b : PyNumber) : PyNumber :=
  match a, b with
  | PyInt m, PyInt n => PyInt (m + n)
  | _, _ => PyFloat (SFadd prec emax (to_float a) (to_float b))
  end.

Definition py_mul (a b : PyNumber) : PyNumber :=
  match a, b with
  | PyInt m, PyInt n => PyInt (m * n)
  | _, _ => PyFloat (SFmul prec emax (to_float a) (to_float b))
  end.

(** [a / b] is a [float] also on two [int]s. (Python raises
    [ZeroDivisionError] for a zero divisor; the policies divide by a count
    they have tested to be positive and by 3600. The quotient of two
    [int]s is rounded once by Python and here after the conversions, which
    are exact up to 2^53.) *)
Definition py_div (a b : PyNumber) : PyNumber :=
  PyFloat (SFdiv prec emax (to_float a) (to_float b)).

Definition py_gtb (a b : PyNumber) : bool :=
  match a, b with
  | PyInt m, PyInt n => n <? m
  | PyFloat x, PyFloat y => SFltb y x
  | PyInt m, PyFloat y =>
      match compare_int_float m y with
      | Some Gt => true
      | _ => false
      end
  | PyFloat x, PyInt n =>
      match compare_int_float n x with
      | Some Lt => true
      | _ => false
      end
  end.

Definition python : Arithmetic :=
  {| number := PyNumber;
     of_int := PyInt;
     quarter := decimal 1 4;
     three_quarters := decimal 3 4;
     num_add := py_add;
     num_mul := py_mul;
     num_div := py_div;
     num_gtb := py_gtb |}.

End Binary64.

Module Arith.

(** The budget gate of [CostBasedScalingPolicy.decide_num_instances]. *)
Module Cost.
Section Gate.
Context `{Arithmetic}.

(** The attributes of the policy object that the gate reads. *)
Record State := {
  max_cost_per_hour : number;
  spent_this_hour : number;
  num_seconds_instances_used : number;
  num_instances_tracked : Z;
  costs_per_hour : gmap string number
}.

Definition avg_hours_used_per_instance (self : State) : number :=
  if 0 <? num_instances_tracked self
  then num_div
         (num_div (num_seconds_instances_used self)
            (of_int (num_instances_tracked self)))
         (of_int 3600)
  else quarter.

(** [self.spent_this_hour + (i + 1) * avg_hours_used_per_instance * cost],
    the products taken from left to right. *)
Definition predicted_cost (self : State) (cost_per_hour : number) (i : Z)
    : number :=
  num_add (spent_this_hour self)
    (num_mul (num_mul (of_int (i + 1)) (avg_hours_used_per_instance self))
       cost_per_hour).

(** The test [predicted_cost > self.max_cost_per_hour * 0.75]. *)
Definition over_ceiling (self : State) (cost_per_hour : number) (i : Z)
    : bool :=
  num_gtb (predicted_cost self cost_per_hour i)
    (num_mul (max_cost_per_hour self) three_quarters).

(** The loop [for i in range(units_requested)] over the remaining indices;
    [None] is the [KeyError] of the lookup. *)
Fixpoint gate_loop (self : State) (group : Group) (range : list Z)
    (units_requested : Z) : option Z :=
  match range with
  | [] => Some units_requested
  | i :: rest =>
      cost ← costs_per_hour self !! instance_type group;
      if over_ceiling self cost i then Some (i + 1)
      else gate_loop self group rest units_requested
  end.

Definition budget_gate (self : State) (group : Group) (units_requested : Z)
    : option Z :=
  gate_loop self group (seqZ 0 units_requested) units_requested.

End Gate.

(** The state of the policy above, read in exact arithmetic. *)
Definition of_exact (self : CostBasedScalingPolicy.State)
    : State (H := exact) :=
  @Build_State exact
    (CostBasedScalingPolicy.max_cost_per_hour self)
    (CostBasedScalingPolicy.spent_this_hour self)
    (CostBasedScalingPolicy.num_seconds_instances_used self)
    (CostBasedScalingPolicy.num_instances_tracked self)
    (CostBasedScalingPolicy.costs_per_hour self).

End Cost.

(** [GrowthBasedScalingPolicy]. *)
Module Growth.
Section Policy.
Context `{Arithmetic} `{Collaborators}.

Record State := {
  trigger_growth_factor : number;
  num_triggers_to_provision : Z;
  num_triggers : Z;
  last_num_pods : Z
}.

Definition __init__ (trigger_growth_factor : number)
    (num_triggers_to_provision : Z) : State :=
  {| trigger_growth_factor := trigger_growth_factor;
     num_triggers_to_provision := num_triggers_to_provision;
     num_triggers := 0;
     last_num_pods := 0 |}.

Definition set_counters (self : State) (num_triggers last_num_pods : Z)
    : State :=
  {| trigger_growth_factor := trigger_growth_factor self;
     num_triggers_to_provision := num_triggers_to_provision self;
     num_triggers := num_triggers;
     last_num_pods := last_num_pods |}.

Definition counters (self : State) : Z * Z :=
  (num_triggers self, last_num_pods self).

(** The test
    [num_pending_pods > self.trigger_growth_factor * self.last_num_pods]. *)
Definition grows (self : State) (num_pending_pods : Z) : bool :=
  num_gtb (of_int num_pending_pods)
    (num_mul (trigger_growth_factor self) (of_int (last_num_pods self))).

(** The test [num_pending_pods < self.last_num_pods * 0.75]. *)
Definition recedes (self : State) (num_pending_pods : Z) : bool :=
  num_gtb (num_mul (of_int (last_num_pods self)) three_quarters)
    (of_int num_pending_pods).

Definition update_triggers (self : State) (num_pending_pods : Z) : State :=
  if grows self num_pending_pods
  then set_counters self (num_triggers self + 1) num_pending_pods
  else if recedes self num_pending_pods
       then set_counters self 0 0
       else self.

(** The two lines [apply] logs, with the values of the first. *)
Inductive Logged :=
| Stats (num_triggers_to_provision : Z) (trigger_growth_factor : number)
        (num_triggers last_num_pods curr_num_pods : Z)
| Trigger.

(** [apply]: the new state, the lines logged, and, when the policy fires,
    the operations collected and their fulfilment. *)
Definition apply (self : State) (pending_pods : gmap string (list Pod))
    (asgs : list Group) (cluster : Cluster)
    : State * list Logged
      * option (list AsyncOperation * (list LogRecord * nat * Completion)) :=
  let num_pending_pods :=
    GrowthBasedScalingPolicy.count_pending pending_pods in
  let self := update_triggers self num_pending_pods in
  let stats :=
    Stats (num_triggers_to_provision self) (trigger_growth_factor self)
      (num_triggers self) (last_num_pods self) num_pending_pods in
  if bool_decide (num_triggers_to_provision self <= num_triggers self)
  then
    let self := set_counters self 0 0 in
    let async_operations :=
      ScalingPolicy.apply_operations pending_pods asgs cluster in
    (self, [stats; Trigger],
     Some (async_operations,
           ScalingPolicy.fulfill_requests async_operations))
  else (self, [stats], None).

End Policy.

(** The state of the policy above, read in exact arithmetic. *)
Definition of_exact (self : GrowthBasedScalingPolicy.State)
    : State (H := exact) :=
  @Build_State exact
    (GrowthBasedScalingPolicy.trigger_growth_factor self)
    (GrowthBasedScalingPolicy.num_triggers_to_provision self)
    (GrowthBasedScalingPolicy.num_triggers self)
    (GrowthBasedScalingPolicy.last_num_pods self).

End Growth.
End Arith.

(** ** Inputs at which rounding decides *)

Module Rounding.

(** One instance tracked, used for 360 seconds; a budget of 4 per hour,
    nothing spent, and the instance type of [Kube.group] at 10 per hour: in
    binary64 and in exact arithmetic. *)
Definition cost_policy : Arith.Cost.State (H := Binary64.python) :=
  @Arith.Cost.Build_State Binary64.python
    (Binary64.PyInt 4) (Binary64.PyInt 0) (Binary64.decimal 360 1) 1
    {[ "Standard_D2" := Binary64.PyInt 10 ]}.

Definition cost_policy_exact : Arith.Cost.State (H := exact) :=
  @Arith.Cost.Build_State exact 4%Q 0%Q 360%Q 1
    {[ "Standard_D2" := 10%Q ]}.

(** A growth-triggered policy with three triggers to provision, two of
    them counted, and the given factor and last count. *)
Definition growth_policy (factor : Binary64.PyNumber) (last_num_pods : Z)
    : Arith.Growth.State (H := Binary64.python) :=
  @Arith.Growth.Build_State Binary64.python factor 3 2 last_num_pods.

Definition growth_policy_exact (factor : Q) (last_num_pods : Z)
    : Arith.Growth.State (H := exact) :=
  @Arith.Growth.Build_State exact factor 3 2 last_num_pods.

End Rounding.

(** * Theorems *)

(** ** Comparisons and loops *)

Lemma Qgtb_true (a b : Q) : Qgtb a b = true <-> (b < a)%Q.
Proof.
  unfold Qgtb. rewrite negb_true_iff, <- not_true_iff_false, Qle_bool_iff.
  split; [apply Qnot_le_lt | apply Qlt_not_le].
Qed.

Lemma Qgtb_false (a b : Q) : Qgtb a b = false <-> (a <= b)%Q.
Proof.
  unfold Qgtb. rewrite negb_false_iff. apply Qle_bool_iff.
Qed.

Lemma foldl_preserves {A B : Type} (P : A -> Prop) (f : A -> B -> A)
    (l : list B) (a : A) :
  P a -> (forall a' b, P a' -> P (f a' b)) -> P (foldl f a l).
Proof.
  intros Ha Hstep. revert a Ha.
  induction l as [|b l IH]; intros a Ha; simpl; auto.
Qed.

(** A loop whose body only appends to the list it is given appends the
    contributions of its iterations in order. *)
Lemma foldl_appending {A B : Type} (f : list A -> B -> list A)
    (g : B -> list A) (l : list B) (a : list A) :
  (forall a' b, f a' b = a' ++ g b) -> foldl f a l = a ++ l ≫= g.
Proof.
  intros Hf. revert a.
  induction l as [|b l IH]; intros a; simpl.
  - by rewrite app_nil_r.
  - by rewrite IH, Hf, <- app_assoc.
Qed.

(** ** Bin packing *)

Section BinPacking.
Context `{Collaborators}.
Import ScalingPolicy.

Lemma find_fit_Some wanted i residuals j residual :
  find_fit wanted i residuals = Some (j, residual) ->
  exists k instance,
    j = (i + k)%nat
    /\ residuals !! k = Some instance
    /\ residual = sub instance wanted
    /\ possible (sub instance wanted) = true
    /\ forall k' earlier, (k' < k)%nat -> residuals !! k' = Some earlier ->
         possible (sub earlier wanted) = false.
Proof.
  revert i. induction residuals as [|instance rest IH]; intros i; simpl.
  - discriminate.
  - destruct (possible (sub instance wanted)) eqn:Hfit.
    + intros [= <- <-]. exists 0%nat, instance.
      repeat split; auto with lia.
    + intros Hrest. destruct (IH _ Hrest) as (k & inst & -> & Hk & -> & Hp & Hmin).
      exists (S k), inst. repeat split; auto with lia.
      intros [|k'] earlier Hlt; simpl.
      * intros [= <-]. exact Hfit.
      * apply Hmin. lia.
Qed.

Lemma find_fit_None wanted i residuals :
  find_fit wanted i residuals = None ->
  Forall (fun instance => possible (sub instance wanted) = false) residuals.
Proof.
  revert i. induction residuals as [|instance rest IH]; intros i; simpl.
  - constructor.
  - destruct (possible (sub instance wanted)) eqn:Hfit; [discriminate|].
    intros Hrest. constructor; eauto.
Qed.

Lemma skip_pod_false group unit_capacity pod acc :
  skip_pod group unit_capacity pod acc = false ->
  acc = false
  /\ possible (sub unit_capacity (resources pod)) = true
  /\ is_taints_tolerated group pod = true.
Proof.
  unfold skip_pod. rewrite !orb_false_iff, !negb_false_iff. tauto.
Qed.

Lemma skip_pod_true group unit_capacity pod acc :
  skip_pod group unit_capacity pod acc = true ->
  acc = true
  \/ possible (sub unit_capacity (resources pod)) = false
  \/ is_taints_tolerated group pod = false.
Proof.
  unfold skip_pod. rewrite !orb_true_iff, !negb_true_iff. tauto.
Qed.

(** Every iteration of the loop is one of the three placements. *)
Lemma pack_step_placement group unit_capacity bins item :
  placement group unit_capacity bins item
    (pack_step group unit_capacity bins item).
Proof.
  destruct bins as [residuals pods], item as [pod acc].
  unfold pack_step; simpl.
  destruct (skip_pod group unit_capacity pod acc) eqn:Hskip.
  - apply placement_skip, skip_pod_true, Hskip.
  - apply skip_pod_false in Hskip as (-> & Hunit & Htol).
    destruct (find_fit (resources pod) 0 residuals) as [[i residual]|] eqn:Hfit.
    + apply find_fit_Some in Hfit as (k & instance & -> & Hk & -> & Hp & Hmin).
      simpl. by eapply placement_fit.
    + apply placement_open; auto. by eapply find_fit_None.
Qed.

(** A placement keeps the bins well formed. *)
Lemma placement_bins_ok group unit_capacity bins item bins' :
  placement group unit_capacity bins item bins' ->
  bins_ok group unit_capacity bins ->
  bins_ok group unit_capacity bins'.
Proof.
  unfold bins_ok. destruct 1 as [| residuals pods pod i instance Hunit Htol Hi Hfit _
                                 | residuals pods pod Hunit Htol _]; simpl; auto.
  - intros Hok. rewrite list_insert_alter.
    apply Forall2_alter; auto.
    intros residual assigned Hr _ (Hp & Heq & Hne & Hall).
    rewrite Hi in Hr. injection Hr as <-.
    repeat split.
    + exact Hfit.
    + rewrite fmap_app, foldl_app. simpl. by rewrite <- Heq.
    + by destruct assigned.
    + apply Forall_app. split; auto.
  - intros Hok. apply Forall2_app; auto.
    constructor; [|constructor].
    repeat split; auto.
Qed.

Lemma pack_from_bins_ok group unit_capacity accounted_pods bins :
  bins_ok group unit_capacity bins ->
  bins_ok group unit_capacity (pack_from group unit_capacity bins accounted_pods).
Proof.
  revert bins. unfold pack_from.
  induction accounted_pods as [|item rest IH]; intros bins Hok; simpl; auto.
  apply IH. eapply placement_bins_ok; eauto using pack_step_placement.
Qed.

Lemma pack_bins_ok group accounted_pods :
  bins_ok group (get_unit_capacity group) (pack group accounted_pods).
Proof. apply pack_from_bins_ok. constructor. Qed.

Lemma pack_lengths group accounted_pods :
  length (pack group accounted_pods).1 = length (pack group accounted_pods).2.
Proof. eapply Forall2_length, pack_bins_ok. Qed.

(** The allocation loop is the iteration of its step: after the first [n]
    pods the bins are those of [pack] on that prefix. *)
Lemma pack_snoc group accounted_pods item :
  pack group (accounted_pods ++ [item])
  = pack_step group (get_unit_capacity group) (pack group accounted_pods) item.
Proof. unfold pack, pack_from. by rewrite foldl_snoc. Qed.

(** C7. In the allocation loop of any group, over any pods: (1) each
    iteration either skips the pod (already accounted, not fitting a fresh
    unit alone, or not tolerated by the group), or puts it in the first bin
    in creation order whose residual stays feasible after subtracting it,
    or, when no bin can hold it, opens a bin with a fresh unit minus the
    pod; (2) the bins after one more pod are those iterations applied to
    the bins before it; (3) after any number of iterations all bins are
    well formed: residuals and pod lists go in pairs, every residual is
    feasible and is the unit capacity minus its pods, and every assigned
    pod is tolerated by the group and fits a fresh unit alone. *)
Theorem bin_packing_safe group :
  (forall bins item,
     placement group (get_unit_capacity group) bins item
       (pack_step group (get_unit_capacity group) bins item))
  /\ (forall accounted_pods item,
        pack group (accounted_pods ++ [item])
        = pack_step group (get_unit_capacity group)
            (pack group accounted_pods) item)
  /\ (forall accounted_pods,
        bins_ok group (get_unit_capacity group) (pack group accounted_pods)).
Proof.
  split; [|split].
  - intros. apply pack_step_placement.
  - intros. apply pack_snoc.
  - intros. apply pack_bins_ok.
Qed.

End BinPacking.

(** ** The base policy: capacity bounds *)

Section Decision.
Context `{Collaborators}.
Import ScalingPolicy.

(** [units_requested] is the need, capped by what the group can still
    take: up to [desired_capacity] when timed out, up to [max_size]
    otherwise. *)
Lemma units_requested_of_min cluster group bins :
  units_requested_of cluster group bins
  = Z.min (Z.of_nat bins + over_provision cluster)
      ((if timed_out cluster group then desired_capacity group
        else max_size group) - actual_capacity group).
Proof.
  unfold units_requested_of, unavailable_units.
  destruct (timed_out cluster group); lia.
Qed.

Lemma decide_group_appends cluster accounted_pods async_operations group :
  decide_group cluster accounted_pods async_operations group
  = async_operations ++ decide_group cluster accounted_pods [] group.
Proof.
  unfold decide_group.
  destruct (skip_group cluster group); [by rewrite app_nil_r|].
  destruct (pack group accounted_pods) as [residuals pods].
  case_bool_decide; [by rewrite app_nil_r|done].
Qed.

Lemma decide_hash_appends cluster pending_pods asgs async_operations key :
  decide_hash cluster pending_pods asgs async_operations key
  = async_operations ++ decide_hash cluster pending_pods asgs [] key.
Proof.
  unfold decide_hash.
  set (accounted_pods := dict_of _).
  rewrite !(foldl_appending _ (decide_group cluster accounted_pods []));
    [done|..]; intros; apply decide_group_appends.
Qed.

Lemma decide_num_instances_appends cluster pending_pods asgs async_operations :
  decide_num_instances cluster pending_pods asgs async_operations
  = async_operations ++ decide_num_instances cluster pending_pods asgs [].
Proof.
  unfold decide_num_instances.
  rewrite !(foldl_appending _ (decide_hash cluster pending_pods asgs []));
    [done|..]; intros; apply decide_hash_appends.
Qed.

Lemma decide_group_issued cluster accounted_pods async_operations group :
  Forall (issued_by cluster) async_operations ->
  Forall (issued_by cluster)
    (decide_group cluster accounted_pods async_operations group).
Proof.
  intros Hops. unfold decide_group.
  destruct (skip_group cluster group) eqn:Hskip; [done|].
  destruct (pack group accounted_pods) as [residuals pods].
  case_bool_decide as Hbins; [done|].
  apply Forall_app. split; [done|].
  constructor; [|constructor].
  exists (length residuals). by repeat split.
Qed.

Lemma decide_num_instances_issued cluster pending_pods asgs async_operations :
  Forall (issued_by cluster) async_operations ->
  Forall (issued_by cluster)
    (decide_num_instances cluster pending_pods asgs async_operations).
Proof.
  intros Hops. unfold decide_num_instances.
  apply foldl_preserves; [done|]. intros ops key Hk. unfold decide_hash.
  apply foldl_preserves; [done|]. intros ops' group Hg.
  by apply decide_group_issued.
Qed.

(** C1, as amended. For every operation that [decide_num_instances] of the
    base policy creates for a group with
    [actual_capacity <= desired_capacity <= max_size], the requested
    capacity is at most [max_size]; and when the configured over-provision
    is not negative it is at least [actual_capacity]. Both hold in the
    timed-out branch and in the normal one. *)
Theorem new_capacity_bounds cluster pending_pods asgs operation :
  operation ∈ decide_num_instances cluster pending_pods asgs [] ->
  actual_capacity (op_group operation) <= desired_capacity (op_group operation)
    <= max_size (op_group operation) ->
  op_new_capacity operation <= max_size (op_group operation)
  /\ (0 <= over_provision cluster ->
      actual_capacity (op_group operation) <= op_new_capacity operation).
Proof.
  intros Hin Hstate.
  pose proof (decide_num_instances_issued cluster pending_pods asgs []
                (Forall_nil_2 _)) as Hall.
  rewrite Forall_forall in Hall.
  destruct (Hall _ Hin) as (bins & Hbins & _ & Hunits & Hnew & _).
  rewrite Hnew, Hunits, units_requested_of_min.
  destruct (timed_out cluster (op_group operation)); lia.
Qed.

End Decision.

(** Witness of [new_capacity_bounds]: the three one-cpu pods of key ["a"]
    on a group of two-cpu units, empty, with room for ten. *)
Lemma new_capacity_bounds_witness :
  let K := Kube.collaborators [2] Kube.succeeds in
  let group := Kube.group "g" 0 0 10 in
  let operation :=
    ScalingPolicy.create_async_operation (Kube.cluster 0) group
      [[Kube.p1; Kube.p2]; [Kube.p3]] 2 2 in
  op_new_capacity operation <= max_size group
  /\ (0 <= 0 -> actual_capacity group <= op_new_capacity operation).
Proof.
  intros K group operation.
  apply (new_capacity_bounds (H := K) (Kube.cluster 0) Kube.pending_one_key
           [group] operation).
  - vm_compute. constructor.
  - simpl. lia.
Defined.

(** C1 as stated fails: with an over-provision of [-2], one pending pod and
    a group at 5 of 10 units (6 desired), the policy requests capacity 4,
    below the actual capacity. *)
Lemma new_capacity_below_actual :
  let K := Kube.collaborators [2] Kube.succeeds in
  let group := Kube.group "g" 5 6 10 in
  exists operation,
    operation ∈ ScalingPolicy.decide_num_instances (H := K) (Kube.cluster (-2))
                  {[ "a" := [Kube.p1] ]} [group] []
    /\ actual_capacity (op_group operation)
         <= desired_capacity (op_group operation)
         <= max_size (op_group operation)
    /\ op_new_capacity operation = 4
    /\ ~ actual_capacity (op_group operation) <= op_new_capacity operation.
Proof.
  intros K group.
  exists (ScalingPolicy.create_async_operation (H := K) (Kube.cluster (-2))
            group [[Kube.p1]] 4 (-1)).
  split; [vm_compute; constructor|].
  simpl. lia.
Qed.

(** The end-to-end example: three pods of one cpu, units of two cpus, an
    empty group with room for ten and no over-provision give the bins
    [[p1, p2], [p3]] and one scale call, to capacity 2. *)
Example three_pods_two_bins :
  let K := Kube.collaborators [2] Kube.succeeds in
  let group := Kube.group "g" 0 0 10 in
  ScalingPolicy.pack (H := K) group
    [(Kube.p1, false); (Kube.p2, false); (Kube.p3, false)]
  = ([[0]; [1]], [[Kube.p1; Kube.p2]; [Kube.p3]])
  /\ ScalingPolicy.apply (H := K) Kube.pending_one_key [group] (Kube.cluster 0)
     = ([ScalingPolicy.create_async_operation (Kube.cluster 0) group
           [[Kube.p1; Kube.p2]; [Kube.p3]] 2 2],
        ([], 1%nat, Normal)).
Proof. split; reflexivity. Qed.

(** ** The base policy: one cycle *)

Section Cycle.
Context `{Collaborators}.
Import ScalingPolicy.

Lemma key_set_NoDup {V : Type} (pending_pods : gmap string V) :
  NoDup (key_set pending_pods).
Proof. apply NoDup_elements. Qed.

Lemma key_set_length {V : Type} (pending_pods : gmap string V) :
  length (key_set pending_pods) = size pending_pods.
Proof. unfold key_set. by rewrite <- size_dom. Qed.

(** One call of [decide_num_instances] runs the decision of every key. *)
Lemma decide_num_instances_every_key cluster pending_pods asgs :
  decide_num_instances cluster pending_pods asgs []
  = key_set pending_pods ≫= decide_hash cluster pending_pods asgs [].
Proof.
  unfold decide_num_instances.
  rewrite (foldl_appending _ (decide_hash cluster pending_pods asgs []));
    [done|]. intros; apply decide_hash_appends.
Qed.

(** [apply] makes that call once per key: with [n] keys, the decision of
    every key runs [n] times, and its scale calls are issued [n] times. *)
Lemma apply_operations_repeat pending_pods asgs cluster :
  apply_operations pending_pods asgs cluster
  = mjoin (replicate (size pending_pods)
             (decide_num_instances cluster pending_pods asgs [])).
Proof.
  unfold apply_operations.
  rewrite (foldl_appending _
             (fun _ => decide_num_instances cluster pending_pods asgs []))
    by (intros; apply decide_num_instances_appends).
  rewrite <- key_set_length. simpl.
  induction (key_set pending_pods) as [|k ks IH]; [done|].
  rewrite bind_cons, IH. done.
Qed.

End Cycle.

(** C2 fails on the code. With the two keys ["a"] and ["b"] and one group,
    one call of [apply] runs the decision of each key twice: the group
    receives two scale requests for the pods of ["a"] and two for the pods
    of ["b"], four in all, where the decision of each key alone issues
    one. *)
Theorem apply_decides_each_key_twice :
  let K := Kube.collaborators [2] Kube.succeeds in
  let group := Kube.group "g" 0 0 10 in
  let cluster := Kube.cluster 0 in
  let for_a :=
    ScalingPolicy.create_async_operation cluster group
      [[Kube.p1; Kube.p2]; [Kube.p3]] 2 2 in
  let for_b :=
    ScalingPolicy.create_async_operation cluster group [[Kube.p4]] 1 1 in
  key_set Kube.pending_two_keys = ["a"; "b"]
  /\ ScalingPolicy.decide_hash (H := K) cluster Kube.pending_two_keys [group]
       [] "a" = [for_a]
  /\ ScalingPolicy.decide_hash (H := K) cluster Kube.pending_two_keys [group]
       [] "b" = [for_b]
  /\ ScalingPolicy.apply_operations (H := K) Kube.pending_two_keys [group]
       cluster = [for_a; for_b; for_a; for_b].
Proof. repeat split; reflexivity. Qed.

(** ** Notification *)

Section Notification.
Context `{Collaborators}.
Import ScalingPolicy.

Lemma notify_loop_length group units flat assigned_pods :
  length (notify_loop group units flat assigned_pods) = length assigned_pods.
Proof.
  revert flat. induction assigned_pods as [|bin rest IH]; intros flat; simpl;
    [done|]. by rewrite IH.
Qed.

(** The call made in iteration [i] passes the pods of the bins [0..i]. *)
Lemma notify_loop_lookup group units flat assigned_pods i :
  (i < length assigned_pods)%nat ->
  notify_loop group units flat assigned_pods !! i
  = Some {| notified_group := group;
            notified_units := units;
            notified_pods := flat ++ mjoin (take (S i) assigned_pods) |}.
Proof.
  revert flat i. induction assigned_pods as [|bin rest IH]; intros flat i Hi;
    simpl in *; [lia|].
  destruct i as [|i].
  - simpl. by rewrite ?take_0, ?app_nil_r.
  - simpl. rewrite IH by lia. by rewrite <- app_assoc.
Qed.

(** An operation that fails, or whose result is not truthy, notifies
    nobody. *)
Lemma notify_if_scaled_unsuccessful operation :
  op_outcome operation <> Returned true -> notify_if_scaled operation = [].
Proof.
  unfold notify_if_scaled. by destruct (op_outcome operation) as [[]| | |].
Qed.

(** A successful operation notifies once per bin. *)
Lemma notify_if_scaled_successful operation :
  op_outcome operation = Returned true ->
  length (notify_if_scaled operation) = length (op_assigned_pods operation).
Proof.
  unfold notify_if_scaled. intros ->. apply notify_loop_length.
Qed.

End Notification.

(** C6 fails on the code. The operation created for the two bins
    [[p1, p2], [p3]] resolves successfully, and its callback calls
    [notify_scale] twice: first with the pods of the first bin only, then
    with the pods of both bins. *)
Theorem notify_scale_called_per_bin :
  let K := Kube.collaborators [2] Kube.succeeds in
  let group := Kube.group "g" 0 0 10 in
  let operation :=
    ScalingPolicy.create_async_operation (H := K) (Kube.cluster 0) group
      [[Kube.p1; Kube.p2]; [Kube.p3]] 2 2 in
  op_outcome operation = Returned true
  /\ ScalingPolicy.notify_if_scaled operation
     = [ {| notified_group := group; notified_units := 2;
            notified_pods := [Kube.p1; Kube.p2] |};
         {| notified_group := group; notified_units := 2;
            notified_pods := [Kube.p1; Kube.p2; Kube.p3] |} ].
Proof. split; reflexivity. Qed.

(** ** Fulfilment *)

Section Fulfilment.
Context `{Collaborators}.
Import ScalingPolicy.

Lemma fulfill_requests_cons_handled operation rest :
  handled (op_outcome operation) = true ->
  fulfill_requests (operation :: rest)
  = (warning_of (op_outcome operation) ++ (fulfill_requests rest).1.1,
     S (fulfill_requests rest).1.2,
     (fulfill_requests rest).2).
Proof.
  simpl. destruct (op_outcome operation); simpl; try discriminate;
    by destruct (fulfill_requests rest) as [[log awaited] c].
Qed.

(** An exception without a handler leaves [fulfill_requests] at the first
    operation that raises one; the operations after it are not awaited. *)
Lemma fulfill_requests_unhandled before operation after exn :
  Forall (fun op => handled (op_outcome op) = true) before ->
  op_outcome operation = RaisedOther exn ->
  fulfill_requests (before ++ operation :: after)
  = (before ≫= (fun op => warning_of (op_outcome op)),
     S (length before), Propagated exn).
Proof.
  intros Hbefore Hop.
  induction Hbefore as [|op before Hh _ IH]; simpl app.
  - simpl. by rewrite Hop.
  - rewrite fulfill_requests_cons_handled, IH by done. by rewrite bind_cons.
Qed.

(** C8, as amended. When every operation returns or raises [CloudError] or
    [TimeoutError], [fulfill_requests] awaits all of them and returns
    normally, and it logs one warning for each provider error and each
    timeout, in the order of the operations: a failure does not keep the
    later operations from being awaited. *)
Theorem fulfill_requests_returns async_operations :
  Forall (fun op => handled (op_outcome op) = true) async_operations ->
  fulfill_requests async_operations
  = (async_operations ≫= (fun op => warning_of (op_outcome op)),
     length async_operations, Normal).
Proof.
  induction 1 as [|op rest Hh _ IH]; [done|].
  rewrite fulfill_requests_cons_handled, IH by done. by rewrite bind_cons.
Qed.

End Fulfilment.

(** Witness of [fulfill_requests_returns]: a provider error, a success and
    a timeout; all three are awaited and two warnings are logged. *)
Lemma fulfill_requests_returns_witness :
  let K := Kube.collaborators [2] Kube.provider in
  let op name :=
    ScalingPolicy.create_async_operation (H := K) (Kube.cluster 0)
      (Kube.group name 0 0 10) [[Kube.p1]] 1 1 in
  ScalingPolicy.fulfill_requests [op "refused"; op "g"; op "slow"]
  = ([Warn "Error while scaling Scale Set: quota exceeded";
      Warn "Timeout while scaling Scale Set"], 3%nat, Normal).
Proof.
  intros K op.
  apply (fulfill_requests_returns (H := K) [op "refused"; op "g"; op "slow"]).
  repeat constructor.
Defined.

(** C8 as stated fails: an operation whose result raises an exception other
    than [CloudError] and [TimeoutError] makes [fulfill_requests] raise it,
    and the operation after it is not awaited. *)
Lemma fulfill_requests_propagates :
  let K := Kube.collaborators [2] Kube.provider in
  let op name :=
    ScalingPolicy.create_async_operation (H := K) (Kube.cluster 0)
      (Kube.group name 0 0 10) [[Kube.p1]] 1 1 in
  op_outcome (op "faulty") = RaisedOther "ValueError"
  /\ ScalingPolicy.fulfill_requests [op "faulty"; op "g"]
     = ([], 1%nat, Propagated "ValueError")
  /\ (ScalingPolicy.fulfill_requests [op "faulty"; op "g"]).2 <> Normal.
Proof. repeat split; try reflexivity. discriminate. Qed.

(** ** The cost-constrained policy *)

Section Budget.
Import CostBasedScalingPolicy.

Lemma gate_loop_granted self group cost range units_requested :
  costs_per_hour self !! instance_type group = Some cost ->
  exists granted,
    gate_loop self group range units_requested = Some granted
    /\ (granted = units_requested \/ exists i, i ∈ range /\ granted = i + 1).
Proof.
  intros Hcost. induction range as [|i rest IH]; simpl.
  - eauto.
  - rewrite Hcost. simpl.
    destruct (Qgtb _ _).
    + exists (i + 1). split; [done|]. right. exists i. split; [left|done].
    + destruct IH as (granted & -> & [->|(j & Hj & ->)]).
      * eauto.
      * exists (j + 1). split; [done|]. right. exists j. split; [by right|done].
Qed.

(** The gate returns a number of units between 1 and the request. *)
Lemma budget_gate_granted self group cost units_requested :
  costs_per_hour self !! instance_type group = Some cost ->
  1 <= units_requested ->
  exists granted,
    budget_gate self group units_requested = Some granted
    /\ 1 <= granted <= units_requested.
Proof.
  intros Hcost Hunits. unfold budget_gate.
  destruct (gate_loop_granted self group cost (seqZ 0 units_requested)
              units_requested Hcost) as (granted & Hg & [->|(i & Hi & ->)]).
  - exists units_requested. split; [done|lia].
  - exists (i + 1). split; [done|]. apply elem_of_seqZ in Hi. lia.
Qed.

(** When the predicted cost of the first unit is over the ceiling, the gate
    stops in its first iteration, with one unit. *)
Lemma budget_gate_first self group cost units_requested :
  costs_per_hour self !! instance_type group = Some cost ->
  1 <= units_requested ->
  (max_cost_per_hour self * (3 # 4) < predicted_cost self cost 0)%Q ->
  budget_gate self group units_requested = Some 1.
Proof.
  intros Hcost Hunits Hover. unfold budget_gate.
  rewrite seqZ_cons by lia. simpl. rewrite Hcost. simpl.
  apply Qgtb_true in Hover. by rewrite Hover.
Qed.

Lemma predicted_cost_first self cost :
  (predicted_cost self cost 0
   == spent_this_hour self + avg_hours_used_per_instance self * cost)%Q.
Proof. unfold predicted_cost. change (inject_Z (0 + 1)) with 1%Q. ring. Qed.

(** With no instance tracked, the average use is a quarter of an hour. *)
Lemma avg_hours_default self :
  num_instances_tracked self = 0 ->
  avg_hours_used_per_instance self = (1 # 4)%Q.
Proof. unfold avg_hours_used_per_instance. by intros ->. Qed.

(** The test of [new_hour] compares the start time minus the current time:
    as long as the clock has not gone back before the construction of the
    policy, it is false, and nothing is reset. *)
Lemma new_hour_unchanged self curr_time :
  (start_time self <= curr_time)%Q ->
  0 <= num_hours self ->
  new_hour self curr_time = self.
Proof.
  intros Hclock Hhours. unfold new_hour.
  replace (Qgtb _ _) with false; [done|].
  symmetry. apply Qgtb_false.
  apply Qle_trans with 0%Q.
  - apply Qle_shift_div_r; [reflexivity|]. lra.
  - replace 0%Q with (inject_Z 0) by done. by rewrite <- Zle_Qle.
Qed.

End Budget.

(** C3, as amended. With a budget of 10 per hour, 2 per hour for the
    instance type, the default quarter of an hour per instance, nothing
    spent and 100 units requested, the gate grants 16 units: the smallest
    number whose predicted cost, 16 * 0.25 * 2 = 8, exceeds 0.75 * 10,
    one more than the largest number (15) whose predicted cost is within
    it. *)
Theorem budget_gate_grants_16 :
  let self := Kube.cost_policy 0 in
  let group := Kube.group "g" 0 0 10 in
  CostBasedScalingPolicy.avg_hours_used_per_instance self = (1 # 4)%Q
  /\ CostBasedScalingPolicy.budget_gate self group 100 = Some 16
  /\ (CostBasedScalingPolicy.predicted_cost self 2 14 == 15 * (1 # 4) * 2)%Q
  /\ (CostBasedScalingPolicy.predicted_cost self 2 14 <= 10 * (3 # 4))%Q
  /\ (CostBasedScalingPolicy.predicted_cost self 2 15 == 16 * (1 # 4) * 2)%Q
  /\ (10 * (3 # 4) < CostBasedScalingPolicy.predicted_cost self 2 15)%Q.
Proof. repeat split; by vm_compute. Qed.

(** C3 as stated fails: the gate does not grant 15 units. *)
Lemma budget_gate_not_15 :
  CostBasedScalingPolicy.budget_gate (Kube.cost_policy 0)
    (Kube.group "g" 0 0 10) 100 <> Some 15.
Proof. by vm_compute. Qed.

(** C4 fails on the code. Two hours after its construction, with hour index
    0 and 5 spent, the policy runs [decide_num_instances]: the elapsed
    hours exceed the hour index, but the hour index stays 0 and the amount
    spent stays 5. *)
Theorem hour_boundary_not_detected :
  let K := Kube.collaborators [2] Kube.succeeds in
  let self := Kube.cost_policy 5 in
  let curr_time := 7200%Q in
  let after :=
    (CostBasedScalingPolicy.decide_num_instances (H := K) self curr_time
       (Kube.cluster 0) Kube.pending_one_key [Kube.group "g" 0 0 10] []).1 in
  ((curr_time - CostBasedScalingPolicy.start_time self) / 3600 == 2)%Q
  /\ (inject_Z (CostBasedScalingPolicy.num_hours self) < 2)%Q
  /\ CostBasedScalingPolicy.new_hour self curr_time = self
  /\ CostBasedScalingPolicy.num_hours after = 0
  /\ CostBasedScalingPolicy.spent_this_hour after = 5%Q.
Proof. repeat split; by vm_compute. Qed.

(** C9, as amended. In the group loop of the cost-constrained policy, for a
    group that is not skipped, has an entry in the cost table and at least
    one bin,
    when the units requested before the gate are at least 1, the gate
    grants at least 1 and at most that many units, and the scale call for
    the actual capacity plus the granted units is issued. When moreover
    the amount spent this hour already exceeds 0.75 of the budget (the
    cost of a unit not being negative), exactly one unit is granted: the
    scale call is for the actual capacity plus 1. *)
Theorem budget_gate_keeps_one `{Collaborators}
    (self : CostBasedScalingPolicy.State) cluster accounted_pods
    async_operations group cost :
  ScalingPolicy.skip_group cluster group = false ->
  (ScalingPolicy.pack group accounted_pods).1 <> [] ->
  CostBasedScalingPolicy.costs_per_hour self !! instance_type group
    = Some cost ->
  1 <= ScalingPolicy.units_requested_of cluster group
         (length (ScalingPolicy.pack group accounted_pods).1) ->
  exists granted,
    CostBasedScalingPolicy.budget_gate self group
      (ScalingPolicy.units_requested_of cluster group
         (length (ScalingPolicy.pack group accounted_pods).1))
    = Some granted
    /\ 1 <= granted
         <= ScalingPolicy.units_requested_of cluster group
              (length (ScalingPolicy.pack group accounted_pods).1)
    /\ CostBasedScalingPolicy.decide_group self cluster accounted_pods
         async_operations group
       = Some (async_operations ++
                 [ScalingPolicy.create_async_operation cluster group
                    (ScalingPolicy.pack group accounted_pods).2
                    (actual_capacity group + granted) granted])
    /\ ((CostBasedScalingPolicy.max_cost_per_hour self * (3 # 4)
         < CostBasedScalingPolicy.spent_this_hour self)%Q ->
        (0 <= CostBasedScalingPolicy.avg_hours_used_per_instance self * cost)%Q ->
        granted = 1).
Proof.
  intros Hskip Hbins Hcost Hunits.
  destruct (budget_gate_granted self group cost _ Hcost Hunits)
    as (granted & Hgate & Hbounds).
  exists granted. split; [done|]. split; [done|]. split.
  - unfold CostBasedScalingPolicy.decide_group. rewrite Hskip.
    destruct (ScalingPolicy.pack group accounted_pods) as [residuals pods].
    simpl in *. case_bool_decide as Hlen.
    + by destruct residuals.
    + by rewrite Hgate.
  - intros Hspent Hprice.
    rewrite (budget_gate_first self group cost) in Hgate; [congruence|done..|].
    rewrite predicted_cost_first. lra.
Qed.

(** Witness of [budget_gate_keeps_one]: 9 of a budget of 10 are spent, the
    three pods of key ["a"] need two units; one unit is granted. *)
Lemma budget_gate_keeps_one_witness :
  let K := Kube.collaborators [2] Kube.succeeds in
  let group := Kube.group "g" 0 0 10 in
  let accounted_pods :=
    [(Kube.p1, false); (Kube.p2, false); (Kube.p3, false)] in
  exists granted,
    CostBasedScalingPolicy.budget_gate (Kube.cost_policy 9) group 2
    = Some granted
    /\ 1 <= granted <= 2
    /\ CostBasedScalingPolicy.decide_group (H := K) (Kube.cost_policy 9)
         (Kube.cluster 0) accounted_pods [] group
       = Some [ScalingPolicy.create_async_operation (Kube.cluster 0) group
                 [[Kube.p1; Kube.p2]; [Kube.p3]] (0 + granted) granted]
    /\ ((10 * (3 # 4) < 9)%Q -> (0 <= (1 # 4) * 2)%Q -> granted = 1).
Proof.
  intros K group accounted_pods.
  apply (budget_gate_keeps_one (H := K) (Kube.cost_policy 9) (Kube.cluster 0)
           accounted_pods [] group 2%Q).
  - reflexivity.
  - discriminate.
  - reflexivity.
  - vm_compute. discriminate.
Defined.

(** C9 as stated fails. Nine of the budget of 10 are spent and two units
    are requested before the gate. Without a cost entry for the instance
    type of the group the gate raises [KeyError], and no scale call is
    issued. With an entry, and an average use that is negative (one
    instance tracked, with -3600 seconds of use), the predicted cost falls
    with every unit: the gate grants both units, and the scale call is for
    the actual capacity plus 2. *)
Lemma budget_gate_needs_entry_and_price :
  let K := Kube.collaborators [2] Kube.succeeds in
  let group := Kube.group "g" 0 0 10 in
  let accounted_pods :=
    [(Kube.p1, false); (Kube.p2, false); (Kube.p3, false)] in
  let without_entry := Kube.cost_state 9 0 0 ∅ in
  let negative_use := Kube.cost_state 9 (-3600) 1 {[ "Standard_D2" := 2%Q ]} in
  ScalingPolicy.units_requested_of (Kube.cluster 0) group
    (length (ScalingPolicy.pack (H := K) group accounted_pods).1) = 2
  /\ (10 * (3 # 4) < 9)%Q
  /\ CostBasedScalingPolicy.budget_gate without_entry group 2 = None
  /\ CostBasedScalingPolicy.decide_group (H := K) without_entry
       (Kube.cluster 0) accounted_pods [] group = None
  /\ CostBasedScalingPolicy.budget_gate negative_use group 2 = Some 2
  /\ CostBasedScalingPolicy.decide_group (H := K) negative_use
       (Kube.cluster 0) accounted_pods [] group
     = Some [ScalingPolicy.create_async_operation (Kube.cluster 0) group
               [[Kube.p1; Kube.p2]; [Kube.p3]] 2 2].
Proof. repeat split; by vm_compute. Qed.

(** ** The growth-triggered policy *)

Section Growth.
Context `{Collaborators}.
Import GrowthBasedScalingPolicy.

Lemma count_pending_nonneg {V : Type} (pending_pods : gmap string (list V)) :
  0 <= count_pending pending_pods.
Proof.
  unfold count_pending.
  apply (map_fold_weak_ind (fun total _ => 0 <= total)); [done|].
  intros; lia.
Qed.

(** What [apply] does to the counters, and whether it runs the decision
    procedure, depends on the number of pending pods only. *)
Lemma apply_trigger_step self pending_pods asgs cluster :
  ((apply self pending_pods asgs cluster).1.1,
   fired (apply self pending_pods asgs cluster))
  = trigger_step self (count_pending pending_pods).
Proof.
  unfold apply, trigger_step, fired. by case_bool_decide.
Qed.

Lemma cycles_trigger_steps self pending asgs cluster :
  (fun result => (result.1.1, fired result))
    <$> cycles self pending asgs cluster
  = trigger_steps self (count_pending <$> pending).
Proof.
  revert self. induction pending as [|pending_pods rest IH]; intros self;
    [done|].
  simpl. rewrite IH, apply_trigger_step.
  by rewrite <- (apply_trigger_step self pending_pods asgs cluster).
Qed.

(** The first test of [update_triggers] and the second exclude each other
    when the growth factor is 2. *)
Lemma update_triggers_receded self num_pending_pods :
  (trigger_growth_factor self == 2)%Q ->
  0 <= num_pending_pods ->
  (inject_Z num_pending_pods < (3 # 4) * inject_Z (last_num_pods self))%Q ->
  update_triggers self num_pending_pods = set_counters self 0 0.
Proof.
  intros Hfactor Hcount Hreceded. unfold update_triggers.
  assert (0 <= inject_Z num_pending_pods)%Q as Hq.
  { replace 0%Q with (inject_Z 0) by done. by rewrite <- Zle_Qle. }
  replace (Qgtb (inject_Z num_pending_pods) _) with false.
  - replace (Qgtb _ (inject_Z num_pending_pods)) with true; [done|].
    symmetry. apply Qgtb_true. lra.
  - symmetry. apply Qgtb_false. rewrite Hfactor. lra.
Qed.

(** C5, as amended. With growth factor 2 and 3 triggers to provision, from
    the initial counters, four calls of [apply] with 1, 3, 7 and 15 pending
    pods leave the counters (triggers, last count) at (1, 1), (2, 3),
    (0, 0) and (1, 15): the first call counts as a trigger, the decision
    procedure runs for the first time on the third call, which resets the
    counters, and the fourth call does not run it. For a policy with
    growth factor 2, any call whose pending count is below 0.75 times the
    last count leaves both counters at 0. *)
Theorem growth_policy_fires_on_third_call
    (first second third fourth : gmap string (list Pod)) asgs cluster :
  count_pending first = 1 ->
  count_pending second = 3 ->
  count_pending third = 7 ->
  count_pending fourth = 15 ->
  (fun result => (counters result.1.1, fired result))
    <$> cycles (__init__ 2 3) [first; second; third; fourth] asgs cluster
  = [((1, 1), false); ((2, 3), false); ((0, 0), true); ((1, 15), false)]
  /\ forall self (pending_pods : gmap string (list Pod)),
       (trigger_growth_factor self == 2)%Q ->
       (inject_Z (count_pending pending_pods)
        < (3 # 4) * inject_Z (last_num_pods self))%Q ->
       counters (apply self pending_pods asgs cluster).1.1 = (0, 0).
Proof.
  intros H1 H2 H3 H4. split.
  - transitivity
      ((fun stepped : State * bool => (counters stepped.1, stepped.2))
         <$> trigger_steps (__init__ 2 3)
               (count_pending <$> [first; second; third; fourth])).
    + by rewrite <- (cycles_trigger_steps _ _ asgs cluster),
        <- list_fmap_compose.
    + simpl fmap at 2. rewrite H1, H2, H3, H4. reflexivity.
  - intros self pending_pods Hfactor Hreceded.
    pose proof (apply_trigger_step self pending_pods asgs cluster) as Hstep.
    apply (f_equal fst) in Hstep. simpl in Hstep. rewrite Hstep.
    unfold trigger_step.
    rewrite update_triggers_receded;
      [by case_bool_decide|done|apply count_pending_nonneg|done].
Qed.

(** C10. For any positive growth factor, the first call of [apply] on a
    new policy with at least one pending pod takes the first branch: the
    trigger count becomes 1 and the last count the number of pending pods,
    as the statistics line logs. With more than one trigger to provision
    the call ends there, with one of the required triggers used up;
    otherwise the policy fires at once. *)
Theorem first_pending_pods_count_as_growth
    (factor : Q) (triggers : Z) (pending_pods : gmap string (list Pod))
    asgs cluster :
  (0 < factor)%Q ->
  1 <= count_pending pending_pods ->
  let self := __init__ factor triggers in
  let n := count_pending pending_pods in
  update_triggers self n = set_counters self 1 n
  /\ (apply self pending_pods asgs cluster).1.2 !! 0%nat
     = Some (GrowthStats triggers factor 1 n n)
  /\ (1 < triggers ->
      apply self pending_pods asgs cluster
      = (set_counters self 1 n, [GrowthStats triggers factor 1 n n], None))
  /\ (triggers <= 1 ->
      (apply self pending_pods asgs cluster).1.1 = set_counters self 0 0
      /\ fired (apply self pending_pods asgs cluster) = true).
Proof.
  intros Hfactor Hcount self n.
  assert (update_triggers self n = set_counters self 1 n) as Hupdate.
  { unfold update_triggers.
    replace (Qgtb _ _) with true; [done|].
    symmetry. apply Qgtb_true.
    apply Qle_lt_trans with 0%Q.
    - change (factor * 0 <= 0)%Q. lra.
    - replace 0%Q with (inject_Z 0) by done. rewrite <- Zlt_Qlt. lia. }
  split; [done|].
  unfold apply. fold n. rewrite Hupdate. simpl.
  repeat split.
  - by case_bool_decide.
  - intros Hmany. case_bool_decide; [lia|done].
  - case_bool_decide; [done|lia].
  - unfold fired. case_bool_decide; [done|lia].
Qed.

End Growth.

(** Witness of [growth_policy_fires_on_third_call], with 1, 3, 7 and 15
    pods pending under one key, and 5 pods pending after 7 were counted. *)
Lemma growth_policy_fires_on_third_call_witness :
  let K := Kube.collaborators [2] Kube.succeeds in
  let group := Kube.group "g" 0 0 10 in
  (fun result =>
     (GrowthBasedScalingPolicy.counters result.1.1,
      GrowthBasedScalingPolicy.fired result))
    <$> GrowthBasedScalingPolicy.cycles (H := K)
          (GrowthBasedScalingPolicy.__init__ 2 3)
          [Kube.pending_count 1; Kube.pending_count 3; Kube.pending_count 7;
           Kube.pending_count 15] [group] (Kube.cluster 0)
  = [((1, 1), false); ((2, 3), false); ((0, 0), true); ((1, 15), false)]
  /\ GrowthBasedScalingPolicy.counters
       (GrowthBasedScalingPolicy.apply (H := K)
          (GrowthBasedScalingPolicy.set_counters
             (GrowthBasedScalingPolicy.__init__ 2 3) 1 7)
          (Kube.pending_count 5) [group] (Kube.cluster 0)).1.1
     = (0, 0).
Proof.
  intros K group.
  destruct (growth_policy_fires_on_third_call (H := K)
              (Kube.pending_count 1) (Kube.pending_count 3)
              (Kube.pending_count 7) (Kube.pending_count 15)
              [group] (Kube.cluster 0)) as [Hcalls Hreceded];
    [reflexivity..|].
  split; [exact Hcalls|].
  apply Hreceded; [reflexivity|]. vm_compute. reflexivity.
Defined.

(** C5 as stated fails: with 1, 3, 7 and 15 pending pods the decision
    procedure runs on the third call, and not on the fourth. *)
Lemma growth_policy_not_on_fourth_call :
  let K := Kube.collaborators [2] Kube.succeeds in
  GrowthBasedScalingPolicy.fired
    <$> GrowthBasedScalingPolicy.cycles (H := K)
          (GrowthBasedScalingPolicy.__init__ 2 3)
          [Kube.pending_count 1; Kube.pending_count 3; Kube.pending_count 7;
           Kube.pending_count 15] [Kube.group "g" 0 0 10] (Kube.cluster 0)
  = [false; false; true; false].
Proof. reflexivity. Qed.

(** Witness of [first_pending_pods_count_as_growth]: growth factor 2, three
    triggers to provision, one pending pod. *)
Lemma first_pending_pods_count_as_growth_witness :
  let K := Kube.collaborators [2] Kube.succeeds in
  let group := Kube.group "g" 0 0 10 in
  let self := GrowthBasedScalingPolicy.__init__ 2 3 in
  GrowthBasedScalingPolicy.update_triggers self 1
  = GrowthBasedScalingPolicy.set_counters self 1 1
  /\ GrowthBasedScalingPolicy.apply (H := K) self (Kube.pending_count 1)
       [group] (Kube.cluster 0)
     = (GrowthBasedScalingPolicy.set_counters self 1 1,
        [GrowthStats 3 2 1 1 1], None).
Proof.
  intros K group self.
  destruct (first_pending_pods_count_as_growth (H := K) 2 3
              (Kube.pending_count 1) [group] (Kube.cluster 0))
    as (Hupdate & _ & Hmany & _); [reflexivity|vm_compute; discriminate|].
  split; [exact Hupdate|]. apply Hmany. lia.
Defined.

(** * Further properties of the code *)

(** ** The pods of a key, each once *)

Section Accounted.
Context {K V : Type} `{EqDecision K}.

Lemma dict_set_keys (k : K) (v : V) (d : list (K * V)) :
  (dict_set k v d).*1 = if decide (k ∈ d.*1) then d.*1 else d.*1 ++ [k].
Proof.
  induction d as [|[k' v'] d IH].
  - rewrite decide_False; [done|]. intros Hin. inversion Hin.
  - cbn [dict_set]. destruct (decide (k = k')) as [->|Hne].
    + rewrite decide_True; [done|]. rewrite fmap_cons. left.
    + rewrite !fmap_cons, IH. cbn [fst].
      destruct (decide (k ∈ d.*1)) as [Hin|Hnot].
      * rewrite decide_True; [done|by right].
      * rewrite decide_False; [done|].
        intros [?|?]%elem_of_cons; done.
Qed.

Lemma dict_set_values (b : V) (k : K) (d : list (K * V)) :
  Forall (fun kv => kv.2 = b) d -> Forall (fun kv => kv.2 = b) (dict_set k b d).
Proof.
  induction 1 as [|[k' v'] d Hv Hd IH]; simpl.
  - by repeat constructor.
  - case_decide; constructor; simpl in *; auto.
Qed.

Lemma dict_of_snoc (pairs : list (K * V)) (kv : K * V) :
  dict_of (pairs ++ [kv]) = dict_set kv.1 kv.2 (dict_of pairs).
Proof. unfold dict_of. by rewrite foldl_snoc. Qed.

End Accounted.

Section AccountedPods.
Context `{Collaborators}.

Lemma accounted_snoc pods pod :
  accounted (pods ++ [pod]) = dict_set pod false (accounted pods).
Proof.
  unfold accounted. rewrite fmap_app. exact (dict_of_snoc _ (pod, false)).
Qed.

Lemma accounted_facts (pods : list Pod) :
  NoDup (accounted pods).*1
  /\ (forall pod, pod ∈ (accounted pods).*1 <-> pod ∈ pods)
  /\ (accounted pods).*1 `sublist_of` pods
  /\ Forall (fun item => item.2 = false) (accounted pods).
Proof.
  induction pods as [|pod pods (Hnodup & Hin & Hsub & Hflags)] using rev_ind.
  - repeat split; try constructor; intros Hx; inversion Hx.
  - rewrite accounted_snoc, dict_set_keys.
    split; [|split; [|split]].
    + case_decide as Hold; [done|].
      apply NoDup_app. repeat split; [done| |apply NoDup_singleton].
      intros x Hx ->%list_elem_of_singleton. done.
    + intros x. rewrite elem_of_app, list_elem_of_singleton.
      case_decide as Hold.
      * rewrite Hin. split; [tauto|]. intros [?| ->]; [done|by apply Hin].
      * by rewrite elem_of_app, list_elem_of_singleton, Hin.
    + case_decide; [by apply sublist_inserts_r|by apply sublist_app].
    + by apply dict_set_values.
Qed.

Lemma filter_all {A : Type} (P : A -> Prop) `{!forall x, Decision (P x)}
    (l : list A) :
  (forall x, P x) -> filter P l = l.
Proof.
  intros HP. induction l as [|x l IH]; [done|].
  by rewrite filter_cons_True, IH.
Qed.

(** The keys of a dict filled from [pairs], starting from the dict [d]. *)
Lemma dict_fill_keys {V : Type} (pairs : list (Pod * V))
    (d : list (Pod * V)) :
  (foldl (fun d kv => dict_set kv.1 kv.2 d) d pairs).*1
  = d.*1 ++ filter (fun k => k ∉ d.*1) (first_occurrences pairs.*1).
Proof.
  revert d. induction pairs as [|[k v] rest IH]; intros d.
  - simpl. by rewrite app_nil_r.
  - simpl foldl. rewrite IH, dict_set_keys. rewrite fmap_cons.
    cbn [fst first_occurrences].
    destruct (decide (k ∈ d.*1)) as [Hold|Hnew].
    + rewrite filter_cons_False by tauto. f_equal.
      rewrite list_filter_filter. apply list_filter_iff.
      intros x. split; [|tauto]. intros Hx. split; [done|].
      by intros ->.
    + rewrite filter_cons_True by done. rewrite <- app_assoc. f_equal.
      simpl. f_equal.
      rewrite list_filter_filter. apply list_filter_iff.
      intros x. rewrite not_elem_of_app, list_elem_of_singleton. tauto.
Qed.

Lemma accounted_keys (pods : list Pod) :
  (accounted pods).*1 = first_occurrences pods.
Proof.
  unfold accounted, dict_of. rewrite dict_fill_keys. simpl.
  rewrite filter_all by (intros x Hx; inversion Hx).
  f_equal. rewrite <- list_fmap_compose. apply list_fmap_id.
Qed.

(** X1. The dict [accounted_pods] built for a key holds every pod of the
    key exactly once, in the order in which the pods first occur in the
    list of the key, and all its flags are [False]: a pod listed twice is
    considered once, at the place of its first occurrence. *)
Theorem accounted_pods_once (pods : list Pod) :
  (accounted pods).*1 = first_occurrences pods
  /\ NoDup (accounted pods).*1
  /\ (forall pod, pod ∈ (accounted pods).*1 <-> pod ∈ pods)
  /\ (accounted pods).*1 `sublist_of` pods
  /\ Forall (fun item => item.2 = false) (accounted pods).
Proof. split; [apply accounted_keys|apply accounted_facts]. Qed.

End AccountedPods.

(** A pod listed twice is kept at the place of its first occurrence. *)
Example accounted_keeps_first_occurrence :
  let K := Kube.collaborators [2] Kube.succeeds in
  accounted (H := K) [Kube.p2; Kube.p1; Kube.p2]
  = [(Kube.p2, false); (Kube.p1, false)].
Proof. reflexivity. Qed.

(** ** What the allocation loop assigns *)

Section Assignment.
Context `{Collaborators}.
Import ScalingPolicy.

Lemma join_alter_snoc (pods : list (list Pod)) (i : nat) (pod : Pod) :
  (i < length pods)%nat ->
  mjoin (alter (fun assigned => assigned ++ [pod]) i pods)
  ≡ₚ mjoin pods ++ [pod].
Proof.
  revert i. induction pods as [|bin rest IH]; intros i Hi; simpl in *; [lia|].
  destruct i as [|i]; simpl.
  - rewrite <- !app_assoc. apply Permutation_app_head, Permutation_app_comm.
  - change (list_alter ?f i rest) with (alter f i rest).
    rewrite IH by lia. by rewrite app_assoc.
Qed.

Lemma pack_step_pods group bins item :
  bins_ok group (get_unit_capacity group) bins ->
  mjoin (pack_step group (get_unit_capacity group) bins item).2
  ≡ₚ mjoin bins.2 ++ (filter (admitted group) [item]).*1.
Proof.
  intros Hok. destruct bins as [residuals pods], item as [pod acc].
  unfold pack_step. simpl fst. simpl snd.
  destruct (skip_pod group (get_unit_capacity group) pod acc) eqn:Hskip.
  - rewrite filter_cons_False; [by rewrite app_nil_r|].
    unfold admitted. simpl. by rewrite Hskip.
  - rewrite filter_cons_True by done. simpl.
    destruct (find_fit (resources pod) 0 residuals) as [[i residual]|] eqn:Hfit.
    + apply find_fit_Some in Hfit as (k & instance & -> & Hk & _).
      simpl. apply join_alter_snoc.
      apply lookup_lt_Some in Hk. apply Forall2_length in Hok. simpl in Hok.
      lia.
    + simpl. by rewrite join_app.
Qed.

Lemma pack_from_pods group bins accounted_pods :
  bins_ok group (get_unit_capacity group) bins ->
  mjoin (pack_from group (get_unit_capacity group) bins accounted_pods).2
  ≡ₚ mjoin bins.2 ++ (filter (admitted group) accounted_pods).*1.
Proof.
  revert bins. induction accounted_pods as [|item rest IH]; intros bins Hok.
  - simpl. by rewrite app_nil_r.
  - change (pack_from group (get_unit_capacity group) bins (item :: rest))
      with (pack_from group (get_unit_capacity group)
              (pack_step group (get_unit_capacity group) bins item) rest).
    rewrite IH
      by (eapply placement_bins_ok; eauto using pack_step_placement).
    rewrite pack_step_pods by done.
    change (item :: rest) with ([item] ++ rest).
    by rewrite (filter_app _ [item] rest), fmap_app, app_assoc.
Qed.

Lemma pack_pods group accounted_pods :
  mjoin (pack group accounted_pods).2
  ≡ₚ (filter (admitted group) accounted_pods).*1.
Proof. apply (pack_from_pods group ([], [])). constructor. Qed.

Lemma join_nonempty_length (pods : list (list Pod)) :
  Forall (fun bin => bin <> []) pods -> (length pods <= length (mjoin pods))%nat.
Proof.
  induction 1 as [|bin rest Hbin _ IH]; simpl; [done|].
  rewrite length_app. destruct bin; [done|]. simpl. lia.
Qed.

Lemma pack_bins_nonempty group accounted_pods :
  Forall (fun bin => bin <> []) (pack group accounted_pods).2.
Proof.
  pose proof (pack_bins_ok group accounted_pods) as Hok.
  unfold bins_ok in Hok.
  induction Hok as [|residual bin residuals pods (_ & _ & Hne & _) _ IH];
    constructor; auto.
Qed.

(** No bin is opened exactly when the guard lets no pod through. *)
Lemma pack_nil_iff group accounted_pods :
  (pack group accounted_pods).1 = []
  <-> Forall (fun item => ~ admitted group item) accounted_pods.
Proof.
  pose proof (pack_pods group accounted_pods) as Hperm.
  pose proof (pack_lengths group accounted_pods) as Hlen.
  pose proof (pack_bins_nonempty group accounted_pods) as Hne.
  destruct (pack group accounted_pods) as [residuals pods]. simpl in *.
  split.
  - intros ->. destruct pods; [|done]. simpl in Hperm.
    symmetry in Hperm. apply Permutation_nil_r in Hperm.
    apply fmap_nil_inv in Hperm.
    apply Forall_forall. intros item Hin Hadm.
    eapply (filter_nil_not_elem_of (admitted group)); eauto.
  - intros Hnone.
    assert (filter (admitted group) accounted_pods = []) as Hfilter.
    { clear -Hnone. induction Hnone as [|item rest Hitem _ IH]; [done|].
      by rewrite filter_cons_False. }
    rewrite Hfilter in Hperm. apply Permutation_nil_r in Hperm.
    apply join_nonempty_length in Hne. rewrite Hperm in Hne.
    destruct residuals; [done|]. simpl in *. lia.
Qed.

(** X2. The bins of a group hold exactly the pods the guard lets through,
    each once: the pods of all bins are a permutation of the admitted pods
    of [accounted_pods]; so there are at most as many bins as admitted
    pods, and no bin is empty. *)
Theorem pack_assigns_admitted (group : Group)
    (accounted_pods : list (Pod * bool)) :
  mjoin (pack group accounted_pods).2
  ≡ₚ (filter (admitted group) accounted_pods).*1
  /\ (length (pack group accounted_pods).1
      <= length (filter (admitted group) accounted_pods))%nat
  /\ Forall (fun bin => bin <> []) (pack group accounted_pods).2.
Proof.
  split; [apply pack_pods|]. split; [|apply pack_bins_nonempty].
  rewrite pack_lengths.
  etrans; [apply join_nonempty_length, pack_bins_nonempty|].
  by rewrite pack_pods, length_fmap.
Qed.

(** X3. When the guard lets none of the pods through (each is too large
    for a fresh unit, not tolerated, or already accounted), the group loop
    issues no scale call for the group: the base policy and the
    cost-constrained policy both leave the collected operations as they
    are, and the cost table is not consulted. *)
Theorem no_admitted_pod_no_scale cluster (self : CostBasedScalingPolicy.State)
    (accounted_pods : list (Pod * bool)) async_operations group :
  Forall (fun item => ~ admitted group item) accounted_pods ->
  decide_group cluster accounted_pods async_operations group
  = async_operations
  /\ CostBasedScalingPolicy.decide_group self cluster accounted_pods
       async_operations group
     = Some async_operations.
Proof.
  intros Hnone%pack_nil_iff.
  unfold decide_group, CostBasedScalingPolicy.decide_group.
  destruct (skip_group cluster group); [done|].
  destruct (pack group accounted_pods) as [residuals pods].
  simpl in Hnone. subst residuals. done.
Qed.

End Assignment.

(** Witness of [no_admitted_pod_no_scale]: a pod of three cpus and a pod
    with untolerated taints, for units of two cpus; the cost table is
    empty. *)
Lemma no_admitted_pod_no_scale_witness :
  let K := Kube.collaborators [2] Kube.succeeds in
  let group := Kube.group "g" 0 0 10 in
  let accounted_pods := [(Kube.big_pod, false); (Kube.untolerated_pod, false)] in
  let self := CostBasedScalingPolicy.__init__ 10 "westeurope" 0 ∅ in
  ScalingPolicy.decide_group (H := K) (Kube.cluster 0) accounted_pods [] group
  = []
  /\ CostBasedScalingPolicy.decide_group (H := K) self (Kube.cluster 0)
       accounted_pods [] group
     = Some [].
Proof.
  intros K group accounted_pods self.
  apply (no_admitted_pod_no_scale (H := K)).
  repeat constructor; vm_compute; discriminate.
Defined.

(** ** Where the operations of a cycle come from *)

Section Origin.
Context `{Collaborators}.
Import ScalingPolicy.

Lemma foldl_preserves_elem {A B : Type} (P : A -> Prop) (f : A -> B -> A)
    (l : list B) (a : A) :
  P a -> (forall a' b, b ∈ l -> P a' -> P (f a' b)) -> P (foldl f a l).
Proof.
  revert a. induction l as [|b l IH]; intros a Ha Hstep; simpl; [done|].
  apply IH.
  - apply Hstep; [left|done].
  - intros a' b' Hb'. apply Hstep. by right.
Qed.

Lemma decide_group_issued_from cluster pending_pods asgs key
    async_operations group :
  key ∈ key_set pending_pods ->
  group ∈ _prioritize_groups cluster (get_groups_for_hash asgs key) ->
  Forall (issued_from cluster pending_pods asgs) async_operations ->
  Forall (issued_from cluster pending_pods asgs)
    (decide_group cluster (accounted (get_pods pending_pods key))
       async_operations group).
Proof.
  intros Hkey Hgroup Hops. unfold decide_group.
  destruct (skip_group cluster group) eqn:Hskip; [done|].
  destruct (pack group (accounted (get_pods pending_pods key)))
    as [residuals pods] eqn:Hpack.
  case_bool_decide as Hbins; [done|].
  apply Forall_app. split; [done|]. constructor; [|constructor].
  exists key. simpl. rewrite Hpack. simpl. repeat split; try done.
  pose proof (pack_lengths group (accounted (get_pods pending_pods key)))
    as Hlen.
  rewrite Hpack in Hlen. simpl in Hlen. intros ->. simpl in Hlen.
  by apply Hbins.
Qed.

Lemma decide_num_instances_issued_from cluster pending_pods asgs :
  Forall (issued_from cluster pending_pods asgs)
    (decide_num_instances cluster pending_pods asgs []).
Proof.
  unfold decide_num_instances.
  apply foldl_preserves_elem; [constructor|].
  intros ops key Hkey Hops. unfold decide_hash.
  apply foldl_preserves_elem; [done|].
  intros ops' group Hgroup Hops'.
  by apply decide_group_issued_from.
Qed.

Lemma key_set_lookup {V : Type} (pending_pods : gmap string (list V)) key :
  key ∈ key_set pending_pods ->
  exists pods,
    pending_pods !! key = Some pods /\ get_pods pending_pods key = pods.
Proof.
  unfold key_set, get_pods. rewrite elem_of_elements, elem_of_dom.
  intros [pods Hpods]. exists pods. by rewrite Hpods.
Qed.

Lemma admitted_unflagged group pod :
  admitted group (pod, false)
  <-> is_taints_tolerated group pod = true
      /\ possible (sub (get_unit_capacity group) (resources pod)) = true.
Proof.
  unfold admitted, skip_pod. simpl.
  rewrite orb_false_iff, !negb_false_iff. tauto.
Qed.

Lemma skip_group_false cluster group :
  skip_group cluster group = false ->
  timed_out cluster group = true
  \/ max_size group = desired_capacity group ->
  unschedulable_nodes group <> [].
Proof.
  unfold skip_group. intros Hskip Hfull Hnodes.
  rewrite (bool_decide_eq_true_2 _ Hnodes), andb_true_r in Hskip.
  apply orb_false_iff in Hskip as [Htimed Hmax].
  apply bool_decide_eq_false in Hmax.
  destruct Hfull; congruence.
Qed.

(** X4. Every operation that [decide_num_instances] of the base policy
    creates comes from one pending key: its group is one the cluster
    returned and prioritized for that key; if that group is timed out or
    has reached its maximum, it has unschedulable nodes; the operation
    carries at least one bin; and its bins hold, each once, exactly the
    pending pods of the key that the group tolerates and that fit a fresh
    unit alone. *)
Theorem operations_come_from_pending cluster
    (pending_pods : gmap string (list Pod)) asgs operation :
  operation ∈ decide_num_instances cluster pending_pods asgs [] ->
  exists selectors_hash pods,
    pending_pods !! selectors_hash = Some pods
    /\ op_group operation
       ∈ _prioritize_groups cluster (get_groups_for_hash asgs selectors_hash)
    /\ (timed_out cluster (op_group operation) = true
        \/ max_size (op_group operation)
           = desired_capacity (op_group operation) ->
        unschedulable_nodes (op_group operation) <> [])
    /\ op_assigned_pods operation <> []
    /\ NoDup (mjoin (op_assigned_pods operation))
    /\ forall pod,
         pod ∈ mjoin (op_assigned_pods operation)
         <-> pod ∈ pods
             /\ is_taints_tolerated (op_group operation) pod = true
             /\ possible (sub (get_unit_capacity (op_group operation))
                            (resources pod)) = true.
Proof.
  intros Hin.
  pose proof (decide_num_instances_issued_from cluster pending_pods asgs)
    as Hall.
  rewrite Forall_forall in Hall.
  destruct (Hall _ Hin) as (key & Hkey & Hgroup & Hskip & Hpods & Hne).
  destruct (key_set_lookup _ _ Hkey) as (pods & Hlookup & Hget).
  rewrite Hget in Hpods.
  destruct (accounted_facts pods) as (Hnodup & Helem & _ & Hflags).
  pose proof (pack_pods (op_group operation) (accounted pods)) as Hperm.
  rewrite <- Hpods in Hperm.
  rewrite Forall_forall in Hflags.
  exists key, pods.
  split; [done|]. split; [done|].
  split; [by apply skip_group_false|]. split; [done|]. split.
  { rewrite Hperm. apply (sublist_NoDup _ (accounted pods).*1); [done|].
    apply fmap_sublist, sublist_filter. }
  intros pod. rewrite Hperm, list_elem_of_fmap. split.
  - intros ([pod' flag] & -> & [Hadm Hitem]%list_elem_of_filter).
    pose proof (Hflags _ Hitem) as Hflag. simpl in Hflag. subst flag.
    apply admitted_unflagged in Hadm as [Htol Hfit].
    split; [|done]. apply Helem.
    by apply (list_elem_of_fmap_2 fst) in Hitem.
  - intros (Hpod & Htol & Hfit). apply Helem in Hpod.
    apply list_elem_of_fmap in Hpod as ([pod' flag] & -> & Hitem).
    exists (pod', flag). split; [done|].
    apply list_elem_of_filter. split; [|done].
    pose proof (Hflags _ Hitem) as Hflag. simpl in Hflag. subst flag.
    by apply admitted_unflagged.
Qed.

End Origin.

(** Witness of [operations_come_from_pending]: the operation created for
    the three pods of key ["a"]. *)
Lemma operations_come_from_pending_witness :
  let K := Kube.collaborators [2] Kube.succeeds in
  let group := Kube.group "g" 0 0 10 in
  let assigned := [[Kube.p1; Kube.p2]; [Kube.p3]] in
  exists selectors_hash pods,
    Kube.pending_one_key !! selectors_hash = Some pods
    /\ group ∈ [group]
    /\ (false = true \/ max_size group = desired_capacity group ->
        unschedulable_nodes group <> [])
    /\ assigned <> []
    /\ NoDup (mjoin assigned)
    /\ forall pod : Kube.KubePod,
         pod ∈ mjoin assigned
         <-> pod ∈ pods
             /\ Kube.pod_tolerated pod = true
             /\ Kube.kube_possible (Kube.kube_sub [2] (Kube.pod_resources pod))
                = true.
Proof.
  intros K group assigned.
  apply (operations_come_from_pending (H := K) (Kube.cluster 0)
           Kube.pending_one_key [group]
           (ScalingPolicy.create_async_operation (H := K) (Kube.cluster 0)
              group assigned 2 2)).
  vm_compute. constructor.
Defined.

(** ** Scale calls that ask for nothing *)

Section NoRoom.
Context `{Collaborators}.
Import ScalingPolicy.

(** X5. A group that passes the first guard although it has no room left
    (timed out with its desired capacity reached, or at its maximum, and
    with unschedulable nodes) still gets a scale call when a pod is
    admitted and the over-provision is not negative: a call for its actual
    capacity, with zero units requested. *)
Theorem scale_call_without_room cluster (accounted_pods : list (Pod * bool))
    async_operations group :
  skip_group cluster group = false ->
  Exists (admitted group) accounted_pods ->
  0 <= over_provision cluster ->
  (if timed_out cluster group then desired_capacity group
   else max_size group) = actual_capacity group ->
  decide_group cluster accounted_pods async_operations group
  = async_operations ++
      [create_async_operation cluster group (pack group accounted_pods).2
         (actual_capacity group) 0].
Proof.
  intros Hskip Hsome Hover Hroom. unfold decide_group. rewrite Hskip.
  assert ((pack group accounted_pods).1 <> []) as Hbins.
  { intros Hnone%pack_nil_iff. rewrite Forall_forall in Hnone.
    apply Exists_exists in Hsome as (item & Hitem & Hadm).
    by apply (Hnone item). }
  destruct (pack group accounted_pods) as [residuals pods]. simpl in *.
  case_bool_decide as Hlen; [by destruct residuals|].
  rewrite units_requested_of_min, Hroom.
  replace (Z.min _ _) with 0 by lia.
  by rewrite Z.add_0_r.
Qed.

End NoRoom.

(** Witness of [scale_call_without_room]: a group at 4 of 4 units with an
    unschedulable node, and one pending pod. *)
Lemma scale_call_without_room_witness :
  let K := Kube.collaborators [2] Kube.succeeds in
  ScalingPolicy.decide_group (H := K) (Kube.cluster 0) [(Kube.p1, false)] []
    Kube.full_group
  = [ScalingPolicy.create_async_operation (Kube.cluster 0) Kube.full_group
       [[Kube.p1]] 4 0].
Proof.
  intros K.
  apply (scale_call_without_room (H := K) (Kube.cluster 0) [(Kube.p1, false)]
           [] Kube.full_group).
  - reflexivity.
  - left. reflexivity.
  - simpl. lia.
  - reflexivity.
Defined.

(** ** What a fulfilment and a callback do, in general *)

Section Outcomes.
Context `{Collaborators}.
Import ScalingPolicy.

(** X6. [fulfill_requests] on any operations: the warnings logged are
    those of the operations awaited, in order; if it returns normally it
    has awaited all operations and none raised an exception without a
    handler; otherwise it has stopped at the first operation whose result
    raised one, raising the same, and the operations after it were not
    awaited. *)
Theorem fulfill_requests_outcome (async_operations : list AsyncOperation) :
  let '(log, awaited, completion) := fulfill_requests async_operations in
  log = take awaited async_operations
          ≫= (fun op => warning_of (op_outcome op))
  /\ (awaited <= length async_operations)%nat
  /\ match completion with
     | Normal =>
         awaited = length async_operations
         /\ Forall (fun op => handled (op_outcome op) = true) async_operations
     | Propagated exn =>
         exists operation,
           async_operations !! pred awaited = Some operation
           /\ (0 < awaited)%nat
           /\ op_outcome operation = RaisedOther exn
           /\ Forall (fun op => handled (op_outcome op) = true)
                (take (pred awaited) async_operations)
     end.
Proof.
  induction async_operations as [|op rest IH]; [by repeat split|].
  simpl fulfill_requests.
  destruct (fulfill_requests rest) as [[log awaited] completion].
  destruct IH as (Hlog & Hlen & Hcompletion).
  assert (handled (op_outcome op) = true ->
          (warning_of (op_outcome op) ++ log
           = take (S awaited) (op :: rest)
               ≫= (fun op => warning_of (op_outcome op)))
          /\ (S awaited <= length (op :: rest))%nat
          /\ match completion with
             | Normal =>
                 S awaited = length (op :: rest)
                 /\ Forall (fun op => handled (op_outcome op) = true)
                      (op :: rest)
             | Propagated exn =>
                 exists operation,
                   (op :: rest) !! pred (S awaited) = Some operation
                   /\ (0 < S awaited)%nat
                   /\ op_outcome operation = RaisedOther exn
                   /\ Forall (fun op => handled (op_outcome op) = true)
                        (take (pred (S awaited)) (op :: rest))
             end) as Hstep.
  { intros Hop. split; [|split].
    - rewrite firstn_cons, bind_cons. by rewrite Hlog.
    - simpl. lia.
    - destruct completion as [|exn].
      + destruct Hcompletion as [-> Hall]. split; [done|by constructor].
      + destruct Hcompletion as (operation & Hat & Hpos & Hexn & Hbefore).
        exists operation. split; [|split; [lia|split; [done|]]].
        * destruct awaited; [lia|]. done.
        * destruct awaited; [lia|]. simpl. constructor; done. }
  destruct (op_outcome op) as [value|message| |exn] eqn:Hop.
  - by apply Hstep.
  - by apply Hstep.
  - by apply Hstep.
  - split; [by rewrite firstn_cons, take_0, bind_cons, Hop|].
    split; [simpl; lia|].
    exists op. repeat split; [lia|done|constructor].
Qed.

(** X7. The callback of an operation makes no call when the result is an
    exception or is not truthy; when the result is truthy it makes one
    call to [notify_scale] per bin, the call for bin [i] passing the group,
    the units requested and the pods of the bins up to [i], so that only
    the last call passes all pods. *)
Theorem notify_if_scaled_calls (operation : AsyncOperation) :
  notify_if_scaled operation
  = (if decide (op_outcome operation = Returned true)
     then (fun i =>
             {| notified_group := op_group operation;
                notified_units := op_units_requested operation;
                notified_pods :=
                  mjoin (take (S i) (op_assigned_pods operation)) |})
            <$> seq 0 (length (op_assigned_pods operation))
     else []).
Proof.
  case_decide as Hop.
  - unfold notify_if_scaled. rewrite Hop.
    apply list_eq. intros i. rewrite list_lookup_fmap.
    destruct (decide (i < length (op_assigned_pods operation))%nat) as [Hi|Hi].
    + rewrite notify_loop_lookup by done.
      by rewrite lookup_seq_lt.
    + rewrite lookup_seq_ge by lia.
      apply lookup_ge_None. rewrite notify_loop_length. lia.
  - by apply notify_if_scaled_unsuccessful.
Qed.

End Outcomes.

(** ** The budget gate, in general *)

Section Gate.
Import CostBasedScalingPolicy.

Lemma gate_loop_crossing self group cost units_requested (n : nat) (a : Z) :
  costs_per_hour self !! instance_type group = Some cost ->
  exists granted,
    gate_loop self group (seqZ a (Z.of_nat n)) units_requested = Some granted
    /\ ((granted = units_requested
         /\ forall i, a <= i < a + Z.of_nat n ->
              (predicted_cost self cost i
               <= max_cost_per_hour self * (3 # 4))%Q)
        \/ (a + 1 <= granted <= a + Z.of_nat n
            /\ (max_cost_per_hour self * (3 # 4)
                < predicted_cost self cost (granted - 1))%Q
            /\ forall i, a <= i < granted - 1 ->
                 (predicted_cost self cost i
                  <= max_cost_per_hour self * (3 # 4))%Q)).
Proof.
  intros Hcost. revert a. induction n as [|n IH]; intros a.
  - exists units_requested. split; [done|]. left. split; [done|]. lia.
  - rewrite seqZ_cons by lia. simpl gate_loop. rewrite Hcost. simpl.
    destruct (Qgtb _ _) eqn:Hover.
    + exists (a + 1). split; [done|]. right.
      replace (a + 1 - 1) with a by lia.
      split; [lia|]. split; [by apply Qgtb_true|]. lia.
    + apply Qgtb_false in Hover.
      replace (Z.pred (Z.of_nat (S n))) with (Z.of_nat n) by lia.
      destruct (IH (Z.succ a)) as (granted & -> & [[-> Hall]|(Hb & Hc & Hall)]).
      * exists units_requested. split; [done|]. left. split; [done|].
        intros i Hi. destruct (decide (i = a)) as [->|]; [done|].
        apply Hall. lia.
      * exists granted. split; [done|]. right.
        split; [lia|]. split; [done|].
        intros i Hi. destruct (decide (i = a)) as [->|]; [done|].
        apply Hall. lia.
Qed.

Lemma budget_gate_crossing self group cost units_requested :
  costs_per_hour self !! instance_type group = Some cost ->
  exists granted,
    budget_gate self group units_requested = Some granted
    /\ ((granted = units_requested
         /\ forall i, 0 <= i < units_requested ->
              (predicted_cost self cost i
               <= max_cost_per_hour self * (3 # 4))%Q)
        \/ (1 <= granted <= units_requested
            /\ (max_cost_per_hour self * (3 # 4)
                < predicted_cost self cost (granted - 1))%Q
            /\ forall i, 0 <= i < granted - 1 ->
                 (predicted_cost self cost i
                  <= max_cost_per_hour self * (3 # 4))%Q)).
Proof.
  intros Hcost. unfold budget_gate.
  replace (seqZ 0 units_requested)
    with (seqZ 0 (Z.of_nat (Z.to_nat units_requested)))
    by (unfold seqZ; by rewrite Nat2Z.id).
  destruct (gate_loop_crossing self group cost units_requested
              (Z.to_nat units_requested) 0 Hcost)
    as (granted & Hgate & [[Heq Hall]|(Hb & Hc & Hall)]);
    exists granted; (split; [done|]).
  - left. split; [done|]. intros i Hi. apply Hall. lia.
  - right. split; [lia|]. done.
Qed.

(** X9. Without a cost entry for the instance type of the group, the gate
    raises [KeyError] as soon as one unit is requested, and returns the
    request unchanged, without a lookup, when no unit is. *)
Theorem budget_gate_missing_entry self group units_requested :
  costs_per_hour self !! instance_type group = None ->
  budget_gate self group units_requested
  = if decide (1 <= units_requested) then None else Some units_requested.
Proof.
  intros Hcost. unfold budget_gate. case_decide as Hunits.
  - rewrite seqZ_cons by lia. simpl. by rewrite Hcost.
  - unfold seqZ. by replace (Z.to_nat units_requested) with 0%nat by lia.
Qed.

End Gate.

(** Witness of [budget_gate_missing_entry]: an empty cost table. *)
Lemma budget_gate_missing_entry_witness :
  let self := CostBasedScalingPolicy.__init__ 10 "westeurope" 0 ∅ in
  let group := Kube.group "g" 0 0 10 in
  CostBasedScalingPolicy.budget_gate self group 2 = None
  /\ CostBasedScalingPolicy.budget_gate self group 0 = Some 0.
Proof.
  intros self group. split.
  - apply (budget_gate_missing_entry self group 2). reflexivity.
  - apply (budget_gate_missing_entry self group 0). reflexivity.
Defined.

(** ** The cost-constrained policy against the base policy *)

Section WithinBudget.
Context `{Collaborators}.

(** X10. For a group whose instance type has a cost entry and for which
    the predicted cost of every count of units up to the request is within
    0.75 of the budget, the group loop of the cost-constrained policy does
    what the group loop of the base policy does. *)
Theorem within_budget_as_base (self : CostBasedScalingPolicy.State) cluster
    (accounted_pods : list (Pod * bool)) async_operations group cost :
  CostBasedScalingPolicy.costs_per_hour self !! instance_type group
    = Some cost ->
  (forall i,
     0 <= i < ScalingPolicy.units_requested_of cluster group
                (length (ScalingPolicy.pack group accounted_pods).1) ->
     (CostBasedScalingPolicy.predicted_cost self cost i
      <= CostBasedScalingPolicy.max_cost_per_hour self * (3 # 4))%Q) ->
  CostBasedScalingPolicy.decide_group self cluster accounted_pods
    async_operations group
  = Some (ScalingPolicy.decide_group cluster accounted_pods async_operations
            group).
Proof.
  intros Hcost Hwithin.
  unfold CostBasedScalingPolicy.decide_group, ScalingPolicy.decide_group.
  destruct (ScalingPolicy.skip_group cluster group); [done|].
  destruct (ScalingPolicy.pack group accounted_pods) as [residuals pods].
  simpl in Hwithin. case_bool_decide; [done|].
  destruct (budget_gate_crossing self group cost
              (ScalingPolicy.units_requested_of cluster group
                 (length residuals)) Hcost)
    as (granted & -> & [[-> _]|(Hbounds & Hover & _)]); [done|].
  exfalso. apply (Qlt_not_le _ _ Hover). apply Hwithin. lia.
Qed.

(** X11. As long as the clock does not read a time before the construction
    of the policy and the hour index is not negative, a call of [apply]
    leaves the policy object as it was: the amount spent this hour is never
    reset, and the call logs the statistics of that state. *)
Theorem cost_apply_keeps_state (self : CostBasedScalingPolicy.State)
    (clock : string -> Q) (pending_pods : gmap string (list Pod)) asgs
    cluster :
  (forall key, (CostBasedScalingPolicy.start_time self <= clock key)%Q) ->
  0 <= CostBasedScalingPolicy.num_hours self ->
  (CostBasedScalingPolicy.apply self clock pending_pods asgs cluster).1
  = (self,
     [CostStats (CostBasedScalingPolicy.num_hours self)
        (CostBasedScalingPolicy.max_cost_per_hour self)
        (CostBasedScalingPolicy.spent_this_hour self)
        (CostBasedScalingPolicy.avg_hours_used_per_instance self)]).
Proof.
  intros Hclock Hhours. unfold CostBasedScalingPolicy.apply.
  match goal with
  | |- context [foldl ?f (self, ?o) ?keys] =>
      assert (forall o', (foldl f (self, o') keys).1 = self) as Hfold
  end.
  { induction (key_set pending_pods) as [|key keys IH]; intros o'; [done|].
    simpl foldl. destruct o' as [ops|]; [|apply IH].
    unfold CostBasedScalingPolicy.decide_num_instances.
    rewrite new_hour_unchanged by done. apply IH. }
  specialize (Hfold (Some [])).
  destruct (foldl _ _ _) as [self' ops]. simpl in Hfold. by subst self'.
Qed.

End WithinBudget.

(** Witness of [within_budget_as_base]: nothing spent, two units requested
    at a predicted cost of 0.5 and 1. *)
Lemma within_budget_as_base_witness :
  let K := Kube.collaborators [2] Kube.succeeds in
  let group := Kube.group "g" 0 0 10 in
  let accounted_pods :=
    [(Kube.p1, false); (Kube.p2, false); (Kube.p3, false)] in
  CostBasedScalingPolicy.decide_group (H := K) (Kube.cost_policy 0)
    (Kube.cluster 0) accounted_pods [] group
  = Some (ScalingPolicy.decide_group (H := K) (Kube.cluster 0) accounted_pods
            [] group).
Proof.
  intros K group accounted_pods.
  apply (within_budget_as_base (H := K) (Kube.cost_policy 0) (Kube.cluster 0)
           accounted_pods [] group 2%Q).
  - reflexivity.
  - intros i Hi.
    change (0 <= i < 2) in Hi.
    assert (i = 0 \/ i = 1) as [-> | ->] by lia; vm_compute; discriminate.
Defined.

(** Witness of [cost_apply_keeps_state]: two hours after the construction,
    with 5 spent. *)
Lemma cost_apply_keeps_state_witness :
  let K := Kube.collaborators [2] Kube.succeeds in
  (CostBasedScalingPolicy.apply (H := K) (Kube.cost_policy 5)
     (fun _ => 7200%Q) Kube.pending_one_key [Kube.group "g" 0 0 10]
     (Kube.cluster 0)).1
  = (Kube.cost_policy 5, [CostStats 0 10 5 (1 # 4)]).
Proof.
  intros K.
  apply (cost_apply_keeps_state (H := K) (Kube.cost_policy 5)
           (fun _ => 7200%Q) Kube.pending_one_key [Kube.group "g" 0 0 10]
           (Kube.cluster 0)).
  - intros key. vm_compute. discriminate.
  - simpl. lia.
Defined.

(** ** Terminated nodes *)

Section Termination.
Import CostBasedScalingPolicy.

(** X12. [node_terminated] always counts the instance and its seconds of
    use, also when the instance type has no cost entry and the method
    raises [KeyError]; the amount spent grows by the cost of the hours used
    only when there is an entry. After the call, when the count of
    instances was not negative before, the average use per instance is
    computed from the counters, the default no longer applies. *)
Theorem node_terminated_counts self now creation_time_epoch type :
  0 <= num_instances_tracked self ->
  let after := (node_terminated self now creation_time_epoch type).1 in
  num_instances_tracked after = num_instances_tracked self + 1
  /\ num_seconds_instances_used after
     = (num_seconds_instances_used self + (now - creation_time_epoch))%Q
  /\ match costs_per_hour self !! type with
     | Some cost =>
         (node_terminated self now creation_time_epoch type).2 = Normal
         /\ spent_this_hour after
            = (spent_this_hour self
               + cost * ((now - creation_time_epoch) / 3600))%Q
     | None =>
         (node_terminated self now creation_time_epoch type).2
         = Propagated "KeyError"
         /\ spent_this_hour after = spent_this_hour self
     end
  /\ avg_hours_used_per_instance after
     = ((num_seconds_instances_used self + (now - creation_time_epoch))
        / inject_Z (num_instances_tracked self + 1) / 3600)%Q.
Proof.
  intros Htracked. unfold node_terminated. simpl.
  destruct (costs_per_hour self !! type) as [cost|]; simpl;
    unfold avg_hours_used_per_instance; simpl;
    (replace (0 <? num_instances_tracked self + 1) with true
       by (symmetry; apply Z.ltb_lt; lia)); done.
Qed.

End Termination.

(** Witness of [node_terminated_counts]: an instance of a type without cost
    entry, used for half an hour. *)
Lemma node_terminated_counts_witness :
  let self := Kube.cost_policy 0 in
  let after :=
    (CostBasedScalingPolicy.node_terminated self 1800 0 "Standard_A1").1 in
  CostBasedScalingPolicy.num_instances_tracked after = 1
  /\ (CostBasedScalingPolicy.node_terminated self 1800 0 "Standard_A1").2
     = Propagated "KeyError"
  /\ (CostBasedScalingPolicy.avg_hours_used_per_instance after == 1 # 2)%Q.
Proof.
  intros self after.
  destruct (node_terminated_counts self 1800 0 "Standard_A1")
    as (Htracked & _ & Hspent & Havg); [simpl; lia|].
  split; [exact Htracked|]. split; [exact (proj1 Hspent)|].
  fold after in Havg. rewrite Havg. reflexivity.
Defined.

(** ** The trigger count of the growth-triggered policy *)

Section Triggers.
Context `{Collaborators}.
Import GrowthBasedScalingPolicy.

Lemma trigger_step_cases self n :
  let grows :=
    Qgtb (inject_Z n) (trigger_growth_factor self * inject_Z (last_num_pods self))%Q in
  let recedes :=
    Qgtb (inject_Z (last_num_pods self) * (3 # 4))%Q (inject_Z n) in
  let count :=
    if grows then num_triggers self + 1
    else if recedes then 0 else num_triggers self in
  let last :=
    if grows then n else if recedes then 0 else last_num_pods self in
  trigger_step self n
  = if bool_decide (num_triggers_to_provision self <= count)
    then (set_counters self 0 0, true)
    else (set_counters self count last, false).
Proof.
  unfold trigger_step, update_triggers. simpl.
  destruct (Qgtb (inject_Z n) _); [|destruct (Qgtb _ (inject_Z n))]; simpl;
    case_bool_decide; try done.
  by destruct self.
Qed.

(** X14. With no trigger to provision (zero or less), every call of
    [apply] on a policy whose trigger count is not negative runs the
    decision procedure and leaves both counters at 0. *)
Theorem growth_policy_without_threshold self
    (pending_pods : gmap string (list Pod)) asgs cluster :
  num_triggers_to_provision self <= 0 ->
  0 <= num_triggers self ->
  fired (apply self pending_pods asgs cluster) = true
  /\ counters (apply self pending_pods asgs cluster).1.1 = (0, 0).
Proof.
  intros Hnone Hcount.
  pose proof (apply_trigger_step self pending_pods asgs cluster) as Hstep.
  rewrite trigger_step_cases in Hstep.
  rewrite bool_decide_eq_true_2 in Hstep.
  - by injection Hstep as -> ->.
  - destruct (Qgtb _ _); [lia|]. destruct (Qgtb _ _); lia.
Qed.

End Triggers.

(** Witness of [growth_policy_without_threshold]: a new policy with zero
    triggers to provision and no pending pod. *)
Lemma growth_policy_without_threshold_witness :
  let K := Kube.collaborators [2] Kube.succeeds in
  let result :=
    GrowthBasedScalingPolicy.apply (H := K)
      (GrowthBasedScalingPolicy.__init__ 2 0) ∅ [Kube.group "g" 0 0 10]
      (Kube.cluster 0) in
  GrowthBasedScalingPolicy.fired result = true
  /\ GrowthBasedScalingPolicy.counters result.1.1 = (0, 0).
Proof.
  intros K result.
  apply (growth_policy_without_threshold (H := K)
           (GrowthBasedScalingPolicy.__init__ 2 0) ∅ [Kube.group "g" 0 0 10]
           (Kube.cluster 0)); simpl; lia.
Defined.

(** ** Cycles without eligible groups *)

Section NoGroups.
Context `{Collaborators}.
Import ScalingPolicy.

(** X15. When the cluster has no group for any of the pending keys (in
    particular when nothing is pending), [apply] of the base policy issues
    no scale call, awaits nothing and returns normally. *)
Theorem apply_without_groups (pending_pods : gmap string (list Pod)) asgs
    cluster :
  (forall key, key ∈ key_set pending_pods ->
     _prioritize_groups cluster (get_groups_for_hash asgs key) = []) ->
  apply pending_pods asgs cluster = ([], ([], 0%nat, Normal)).
Proof.
  intros Hnone.
  assert (decide_num_instances cluster pending_pods asgs [] = []) as Hcall.
  { rewrite decide_num_instances_every_key.
    induction (key_set pending_pods) as [|key keys IH]; [done|].
    rewrite bind_cons, IH by (intros k Hk; apply Hnone; by right).
    unfold decide_hash. rewrite Hnone by left. done. }
  unfold apply. rewrite apply_operations_repeat, Hcall.
  replace (mjoin (replicate (size pending_pods) [])) with (@nil AsyncOperation);
    [done|].
  by induction (size pending_pods) as [|n IH].
Qed.

(** X16. With [n] pending keys, [apply] collects the operations of one
    call of [decide_num_instances] [n] times over: [n] times as many scale
    calls as that call issues. *)
Theorem apply_collects_per_key (pending_pods : gmap string (list Pod)) asgs
    cluster :
  apply_operations pending_pods asgs cluster
  = mjoin (replicate (size pending_pods)
             (decide_num_instances cluster pending_pods asgs []))
  /\ length (apply_operations pending_pods asgs cluster)
     = (size pending_pods
        * length (decide_num_instances cluster pending_pods asgs []))%nat.
Proof.
  split; [apply apply_operations_repeat|].
  rewrite apply_operations_repeat.
  induction (size pending_pods) as [|n IH]; [done|].
  simpl. rewrite length_app. simpl in IH. by rewrite IH.
Qed.

End NoGroups.

(** Witness of [apply_without_groups]: three pending pods and no group. *)
Lemma apply_without_groups_witness :
  let K := Kube.collaborators [2] Kube.succeeds in
  ScalingPolicy.apply (H := K) Kube.pending_one_key [] (Kube.cluster 0)
  = ([], ([], 0%nat, Normal)).
Proof.
  intros K.
  apply (apply_without_groups (H := K) Kube.pending_one_key []
           (Kube.cluster 0)).
  reflexivity.
Defined.

(** ** The units an operation asks for *)

Section Units.
Context `{Collaborators}.
Import ScalingPolicy.

Lemma decide_num_instances_units cluster pending_pods asgs :
  Forall (units_as_computed cluster)
    (decide_num_instances cluster pending_pods asgs []).
Proof.
  unfold decide_num_instances.
  apply foldl_preserves; [constructor|]. intros ops key Hops.
  unfold decide_hash. apply foldl_preserves; [done|].
  intros ops' group Hops'. unfold decide_group.
  destruct (skip_group cluster group); [done|].
  pose proof (pack_lengths group
                (dict_of ((fun p => (p, false)) <$> get_pods pending_pods key)))
    as Hlen.
  destruct (pack group _) as [residuals pods]. simpl in Hlen.
  case_bool_decide; [done|].
  apply Forall_app. split; [done|]. constructor; [|constructor].
  unfold units_as_computed. simpl. by rewrite Hlen.
Qed.

(** X17. Every operation that [decide_num_instances] of the base policy
    creates asks for the number of its bins plus the over-provision, capped
    by the room of its group: up to the desired capacity when the group is
    timed out, up to the maximum otherwise. So the capacity requested is
    never above the desired capacity of a timed-out group, nor above the
    maximum of another, whatever the state of the group. *)
Theorem units_requested_capped cluster (pending_pods : gmap string (list Pod))
    asgs operation :
  operation ∈ decide_num_instances cluster pending_pods asgs [] ->
  let group := op_group operation in
  let cap :=
    if timed_out cluster group then desired_capacity group
    else max_size group in
  op_units_requested operation
  = Z.min (Z.of_nat (length (op_assigned_pods operation))
           + over_provision cluster)
      (cap - actual_capacity group)
  /\ op_new_capacity operation
     = actual_capacity group + op_units_requested operation
  /\ op_new_capacity operation <= cap
  /\ op_outcome operation = scale group (op_new_capacity operation).
Proof.
  intros Hin group cap.
  pose proof (decide_num_instances_units cluster pending_pods asgs) as Hall.
  rewrite Forall_forall in Hall.
  destruct (Hall _ Hin) as (Hunits & Hnew & Hout).
  rewrite units_requested_of_min in Hunits. fold group cap in Hunits.
  repeat split; try done. fold group in Hnew. lia.
Qed.

End Units.

(** Witness of [units_requested_capped]: the operation for the three pods
    of key ["a"], two bins and no over-provision, with room for ten. *)
Lemma units_requested_capped_witness :
  let K := Kube.collaborators [2] Kube.succeeds in
  let group := Kube.group "g" 0 0 10 in
  let operation :=
    ScalingPolicy.create_async_operation (H := K) (Kube.cluster 0) group
      [[Kube.p1; Kube.p2]; [Kube.p3]] 2 2 in
  op_units_requested operation = Z.min (2 + 0) (10 - 0)
  /\ op_new_capacity operation = 0 + op_units_requested operation
  /\ op_new_capacity operation <= 10
  /\ op_outcome operation = Returned true.
Proof.
  intros K group operation.
  apply (units_requested_capped (H := K) (Kube.cluster 0)
           Kube.pending_one_key [group] operation).
  vm_compute. constructor.
Defined.

(** ** A cycle of the cost-constrained policy that raises *)

Section Abort.
Context `{Collaborators}.
Import CostBasedScalingPolicy.

Lemma foldl_raising_None {A B : Type} (body : A -> B -> option A)
    (l : list B) (a : A) (x : B) :
  x ∈ l -> (forall a', body a' x = None) -> foldl_raising body a l = None.
Proof.
  intros Hx Hbody. revert a.
  induction l as [|y l IH]; intros a; [by inversion Hx|].
  simpl. apply elem_of_cons in Hx as [<-|Hx]; [by rewrite Hbody|].
  destruct (body a y); [by apply IH|done].
Qed.

Lemma new_hour_costs self curr_time :
  costs_per_hour (new_hour self curr_time) = costs_per_hour self.
Proof. unfold new_hour. by destruct (Qgtb _ _). Qed.

(** X18. In the cost-constrained policy, one group that passes the first
    guard, admits a pending pod of its key, would be asked for at least
    one unit and has an instance type without cost entry makes [apply]
    raise [KeyError] in its first call of [decide_num_instances]: the
    method ends before [fulfill_requests], so no operation is awaited. *)
Theorem unknown_instance_type_aborts (self : State) (clock : string -> Q)
    (pending_pods : gmap string (list Pod)) asgs cluster key group :
  key ∈ key_set pending_pods ->
  group ∈ _prioritize_groups cluster (get_groups_for_hash asgs key) ->
  ScalingPolicy.skip_group cluster group = false ->
  Exists (admitted group) (accounted (get_pods pending_pods key)) ->
  1 <= ScalingPolicy.units_requested_of cluster group
         (length (ScalingPolicy.pack group
                    (accounted (get_pods pending_pods key))).1) ->
  costs_per_hour self !! instance_type group = None ->
  (apply self clock pending_pods asgs cluster).2 = None.
Proof.
  intros Hkey Hgroup Hskip Hsome Hunits Hcost.
  assert (forall self' curr_time ops,
            costs_per_hour self' = costs_per_hour self ->
            (decide_num_instances self' curr_time cluster pending_pods asgs
               ops).2 = None) as Hcall.
  { intros self' curr_time ops Htable.
    unfold decide_num_instances. simpl.
    apply (foldl_raising_None _ _ _ key Hkey). intros ops'.
    unfold decide_hash.
    apply (foldl_raising_None _ _ _ group Hgroup). intros ops''.
    unfold decide_group. rewrite Hskip.
    assert ((ScalingPolicy.pack group
               (accounted (get_pods pending_pods key))).1 <> []) as Hbins.
    { intros Hnone%pack_nil_iff. rewrite Forall_forall in Hnone.
      apply Exists_exists in Hsome as (item & Hitem & Hadm).
      by apply (Hnone item). }
    fold (accounted (get_pods pending_pods key)).
    destruct (ScalingPolicy.pack group _) as [residuals pods]. simpl in *.
    case_bool_decide as Hlen; [by destruct residuals|].
    rewrite budget_gate_missing_entry
      by (by rewrite new_hour_costs, Htable).
    rewrite decide_True by exact Hunits. done. }
  unfold apply.
  destruct (key_set pending_pods) as [|first rest]; [by inversion Hkey|].
  simpl foldl.
  destruct (decide_num_instances self (clock first) cluster pending_pods asgs
              []) as [self' result] eqn:Hfirst.
  pose proof (Hcall self (clock first) [] eq_refl) as Hnone.
  rewrite Hfirst in Hnone. simpl in Hnone. subst result.
  assert (forall st, (foldl
            (fun '(self, async_operations) selectors_hash =>
               match async_operations with
               | Some async_operations =>
                   decide_num_instances self (clock selectors_hash) cluster
                     pending_pods asgs async_operations
               | None => (self, None)
               end) (st, None) rest).2 = None) as Hrest.
  { clear. induction rest as [|k rest IH]; intros st; [done|].
    simpl. apply IH. }
  specialize (Hrest self').
  destruct (foldl _ _ rest) as [self'' result]. simpl in Hrest.
  by subst result.
Qed.

End Abort.

(** Witness of [unknown_instance_type_aborts]: an empty cost table. *)
Lemma unknown_instance_type_aborts_witness :
  let K := Kube.collaborators [2] Kube.succeeds in
  (CostBasedScalingPolicy.apply (H := K)
     (CostBasedScalingPolicy.__init__ 10 "westeurope" 0 ∅) (fun _ => 60%Q)
     Kube.pending_one_key [Kube.group "g" 0 0 10] (Kube.cluster 0)).2
  = None.
Proof.
  intros K.
  apply (unknown_instance_type_aborts (H := K)
           (CostBasedScalingPolicy.__init__ 10 "westeurope" 0 ∅)
           (fun _ => 60%Q) Kube.pending_one_key [Kube.group "g" 0 0 10]
           (Kube.cluster 0) "a" (Kube.group "g" 0 0 10)).
  - vm_compute. constructor.
  - left.
  - reflexivity.
  - left. reflexivity.
  - vm_compute. discriminate.
  - reflexivity.
Defined.

(** ** The gate and the triggers in any arithmetic *)

Section AnyArithmetic.
Context `{Arithmetic}.

Lemma arith_gate_loop_crossing (self : Arith.Cost.State) group cost
    units_requested (n : nat) (a : Z) :
  Arith.Cost.costs_per_hour self !! instance_type group = Some cost ->
  exists granted,
    Arith.Cost.gate_loop self group (seqZ a (Z.of_nat n)) units_requested
    = Some granted
    /\ ((granted = units_requested
         /\ forall i, a <= i < a + Z.of_nat n ->
              Arith.Cost.over_ceiling self cost i = false)
        \/ (a + 1 <= granted <= a + Z.of_nat n
            /\ Arith.Cost.over_ceiling self cost (granted - 1) = true
            /\ forall i, a <= i < granted - 1 ->
                 Arith.Cost.over_ceiling self cost i = false)).
Proof.
  intros Hcost. revert a. induction n as [|n IH]; intros a.
  - exists units_requested. split; [done|]. left. split; [done|]. lia.
  - rewrite seqZ_cons by lia. simpl Arith.Cost.gate_loop.
    rewrite Hcost. simpl.
    destruct (Arith.Cost.over_ceiling self cost a) eqn:Hover.
    + exists (a + 1). split; [done|]. right.
      replace (a + 1 - 1) with a by lia.
      split; [lia|]. split; [done|]. lia.
    + replace (Z.pred (Z.of_nat (S n))) with (Z.of_nat n) by lia.
      destruct (IH (Z.succ a)) as (granted & -> & [[Heq Hall]|(Hb & Hc & Hall)]).
      * exists granted. split; [done|]. left. split; [done|].
        intros i Hi. destruct (decide (i = a)) as [->|]; [done|].
        apply Hall. lia.
      * exists granted. split; [done|]. right.
        split; [lia|]. split; [done|].
        intros i Hi. destruct (decide (i = a)) as [->|]; [done|].
        apply Hall. lia.
Qed.

(** X8. In any arithmetic, so also in binary64: the gate, for a group whose
    instance type has a cost entry, grants either all the units requested,
    the test [predicted_cost > max_cost_per_hour * 0.75] being false for
    every count up to them, or the first count for which that test is
    true, the test being false for every smaller count. *)
Theorem budget_gate_first_crossing (self : Arith.Cost.State) group cost
    units_requested :
  Arith.Cost.costs_per_hour self !! instance_type group = Some cost ->
  exists granted,
    Arith.Cost.budget_gate self group units_requested = Some granted
    /\ ((granted = units_requested
         /\ forall i, 0 <= i < units_requested ->
              Arith.Cost.over_ceiling self cost i = false)
        \/ (1 <= granted <= units_requested
            /\ Arith.Cost.over_ceiling self cost (granted - 1) = true
            /\ forall i, 0 <= i < granted - 1 ->
                 Arith.Cost.over_ceiling self cost i = false)).
Proof.
  intros Hcost. unfold Arith.Cost.budget_gate.
  replace (seqZ 0 units_requested)
    with (seqZ 0 (Z.of_nat (Z.to_nat units_requested)))
    by (unfold seqZ; by rewrite Nat2Z.id).
  destruct (arith_gate_loop_crossing self group cost units_requested
              (Z.to_nat units_requested) 0 Hcost)
    as (granted & Hgate & [[Heq Hall]|(Hb & Hc & Hall)]);
    exists granted; (split; [done|]).
  - left. split; [done|]. intros i Hi. apply Hall. lia.
  - right. split; [lia|]. done.
Qed.

Section Triggers.
Context `{Collaborators}.

(** X13. In any arithmetic, so also in binary64: while the trigger count is
    below the number of triggers to provision, a call of [apply] keeps it
    there and keeps the parameters of the policy; the call runs the
    decision procedure exactly when the test
    [num_pending_pods > trigger_growth_factor * last_num_pods] is true and
    this trigger is the last one needed, and it then leaves both counters
    at 0. *)
Theorem growth_policy_fires_at_threshold (self : Arith.Growth.State)
    (pending_pods : gmap string (list Pod)) asgs cluster :
  0 <= Arith.Growth.num_triggers self
    < Arith.Growth.num_triggers_to_provision self ->
  let result := Arith.Growth.apply self pending_pods asgs cluster in
  Arith.Growth.trigger_growth_factor result.1.1
  = Arith.Growth.trigger_growth_factor self
  /\ Arith.Growth.num_triggers_to_provision result.1.1
     = Arith.Growth.num_triggers_to_provision self
  /\ 0 <= Arith.Growth.num_triggers result.1.1
       < Arith.Growth.num_triggers_to_provision self
  /\ (GrowthBasedScalingPolicy.fired result = true
      <-> Arith.Growth.grows self
            (GrowthBasedScalingPolicy.count_pending pending_pods) = true
          /\ Arith.Growth.num_triggers self + 1
             = Arith.Growth.num_triggers_to_provision self)
  /\ (GrowthBasedScalingPolicy.fired result = true ->
      Arith.Growth.counters result.1.1 = (0, 0)).
Proof.
  intros Hinv result. subst result.
  unfold Arith.Growth.apply, Arith.Growth.update_triggers,
    GrowthBasedScalingPolicy.fired.
  destruct (Arith.Growth.grows self _) eqn:Hgrows;
    [|destruct (Arith.Growth.recedes self _)];
    simpl; case_bool_decide as Hfire; simpl;
    (split; [done|]); (split; [done|]); (split; [lia|]);
    (split; [|done]); split; try done; try lia; intros [? ?]; try done; lia.
Qed.

End Triggers.
End AnyArithmetic.

(** In exact arithmetic the gate and the trigger bookkeeping of this part
    are those of the policies above. *)
Lemma budget_gate_exact (self : CostBasedScalingPolicy.State) group
    units_requested :
  Arith.Cost.budget_gate (Arith.Cost.of_exact self) group units_requested
  = CostBasedScalingPolicy.budget_gate self group units_requested.
Proof.
  unfold Arith.Cost.budget_gate, CostBasedScalingPolicy.budget_gate.
  induction (seqZ 0 units_requested) as [|i rest IH]; [done|].
  simpl. destruct (CostBasedScalingPolicy.costs_per_hour self !! _); [|done].
  simpl. by rewrite IH.
Qed.

Lemma update_triggers_exact (self : GrowthBasedScalingPolicy.State) n :
  Arith.Growth.update_triggers (Arith.Growth.of_exact self) n
  = Arith.Growth.of_exact (GrowthBasedScalingPolicy.update_triggers self n).
Proof.
  unfold Arith.Growth.update_triggers, GrowthBasedScalingPolicy.update_triggers,
    Arith.Growth.grows, Arith.Growth.recedes.
  simpl. destruct (Qgtb _ _); [done|]. by destruct (Qgtb _ _).
Qed.

(** Witness of [budget_gate_first_crossing], in binary64: an average use of
    360 / 1 / 3600 hours, which is not exactly a tenth, makes the predicted
    cost of three units, 3 * 0.1 * 10, exceed the ceiling 4 * 0.75 = 3. *)
Lemma budget_gate_first_crossing_witness :
  let group := Kube.group "g" 0 0 10 in
  exists granted,
    Arith.Cost.budget_gate Rounding.cost_policy group 5 = Some granted
    /\ ((granted = 5
         /\ forall i, 0 <= i < 5 ->
              Arith.Cost.over_ceiling Rounding.cost_policy
                (Binary64.PyInt 10) i = false)
        \/ (1 <= granted <= 5
            /\ Arith.Cost.over_ceiling Rounding.cost_policy
                 (Binary64.PyInt 10) (granted - 1) = true
            /\ forall i, 0 <= i < granted - 1 ->
                 Arith.Cost.over_ceiling Rounding.cost_policy
                   (Binary64.PyInt 10) i = false)).
Proof.
  intros group.
  apply (budget_gate_first_crossing (H := Binary64.python)
           Rounding.cost_policy group (Binary64.PyInt 10) 5).
  reflexivity.
Defined.

(** At that input the gate grants three units in binary64 and four in
    exact arithmetic. *)
Example rounding_moves_the_gate :
  let group := Kube.group "g" 0 0 10 in
  Arith.Cost.budget_gate Rounding.cost_policy group 5 = Some 3
  /\ Arith.Cost.budget_gate Rounding.cost_policy_exact group 5 = Some 4.
Proof. split; by vm_compute. Qed.

(** With the inputs of C3 the gate grants 16 units in binary64 as well. *)
Example budget_gate_grants_16_binary64 :
  Arith.Cost.budget_gate
    (@Arith.Cost.Build_State Binary64.python (Binary64.PyInt 10)
       (Binary64.PyInt 0) (Binary64.PyInt 0) 0
       {[ "Standard_D2" := Binary64.PyInt 2 ]})
    (Kube.group "g" 0 0 10) 100
  = Some 16.
Proof. by vm_compute. Qed.

(** Witness of [growth_policy_fires_at_threshold], in binary64: with growth
    factor 4.35 and 100 pods counted last, 435 pending pods exceed the
    product 434.99999999999994, and the third trigger fires. *)
Lemma growth_policy_fires_at_threshold_witness :
  let K := Kube.collaborators [2] Kube.succeeds in
  let self := Rounding.growth_policy (Binary64.decimal 435 100) 100 in
  let result :=
    Arith.Growth.apply (H := Binary64.python) (H0 := K) self
      (Kube.pending_count 435) [Kube.group "g" 0 0 10] (Kube.cluster 0) in
  GrowthBasedScalingPolicy.fired result = true
  /\ Arith.Growth.counters result.1.1 = (0, 0).
Proof.
  intros K self result.
  destruct (growth_policy_fires_at_threshold (H := Binary64.python) (H0 := K)
              self (Kube.pending_count 435) [Kube.group "g" 0 0 10]
              (Kube.cluster 0))
    as (_ & _ & _ & Hfires & Hreset); [simpl; lia|].
  assert (GrowthBasedScalingPolicy.fired result = true) as Hfired.
  { apply Hfires. split; [by vm_compute|reflexivity]. }
  split; [exact Hfired|]. apply Hreset, Hfired.
Defined.

(** The growth test at inputs where the product rounds. The binary64 value
    of 1.4 is 6305039478318694 / 2^52, a little below 1.4: its product
    with 5 rounds to 7.0, which 7 pending pods do not exceed, while the
    unrounded product is below 7. The binary64 value of 4.35 times 100
    rounds to 434.99999999999994, which 435 pending pods exceed, while
    they do not exceed 435/100 times 100. *)
Example rounding_moves_the_trigger :
  Arith.Growth.grows (Rounding.growth_policy (Binary64.decimal 14 10) 5) 7
  = false
  /\ Arith.Growth.grows
       (Rounding.growth_policy_exact (6305039478318694 # 4503599627370496) 5)
       7 = true
  /\ Arith.Growth.grows (Rounding.growth_policy (Binary64.decimal 435 100) 100)
       435 = true
  /\ Arith.Growth.grows (Rounding.growth_policy_exact (435 # 100) 100) 435
     = false.
Proof. repeat split; by vm_compute. Qed.
